(** * Tree identifier: the Home page controller and its report formatter

    A shallow embedding of the [Home] component:
    - [JS]: the JavaScript string operations the component calls, over
      strings as sequences of UTF-16 code units;
    - [Formatter]: [formatAnalysis], the line-by-line formatter of the report;
    - [Controller]: the four React state cells, the handlers
      [loadDefaultContent], [handleImageUpload] and [handleAnalyze] cut at
      their suspension points, and the event loop that interleaves them;
    - [View]: what the panels render and what is counted among the
      operations in flight. *)

From Stdlib Require Import List PeanoNat NArith Bool String Ascii Lia Sorted.
Import ListNotations.

Set Implicit Arguments.

(* ===================================================================== *)
(** ** JavaScript strings *)
(* ===================================================================== *)

Module JS.

(** A JavaScript string is a finite sequence of UTF-16 code units. *)
Definition jsstring := list N.

(** An ASCII literal of the source, as code units. *)
Definition js (s : string) : jsstring :=
  map N_of_ascii (list_ascii_of_string s).

(** Truthiness of a string: only the empty string is falsy. *)
Definition truthy (s : jsstring) : bool :=
  match s with
  | [] => false
  | _ :: _ => true
  end.

(** [s.startsWith(p)] *)
Fixpoint startsWith (s p : jsstring) {struct p} : bool :=
  match p with
  | [] => true
  | c :: p' =>
      match s with
      | [] => false
      | d :: s' => N.eqb d c && startsWith s' p'
      end
  end.

(** [s.includes(c)] for a one-character needle [c]. *)
Definition includes (s : jsstring) (c : N) : bool :=
  existsb (N.eqb c) s.

(** [s.substring(n)] *)
Definition substring (n : nat) (s : jsstring) : jsstring := skipn n s.

(** [s.split(sep)] for a one-character separator: the result always has a
    first piece, returned apart from the pieces that follow it. *)
Fixpoint split1 (sep : N) (s : jsstring) : jsstring * list jsstring :=
  match s with
  | [] => ([], [])
  | c :: s' =>
      let (w, ws) := split1 sep s' in
      if N.eqb c sep then ([], w :: ws) else (c :: w, ws)
  end.

Definition split (sep : N) (s : jsstring) : list jsstring :=
  let (w, ws) := split1 sep s in w :: ws.

(** [parts.join(sep)] for a one-character separator. *)
Fixpoint join (sep : N) (parts : list jsstring) : jsstring :=
  match parts with
  | [] => []
  | w :: ws =>
      match ws with
      | [] => w
      | _ :: _ => w ++ sep :: join sep ws
      end
  end.

(** White space as [String.prototype.trim] and the regular expression class
    [\s] see it: the WhiteSpace and LineTerminator code points of ECMAScript. *)
Definition isWhiteSpace (c : N) : bool :=
  existsb (N.eqb c)
    [9; 10; 11; 12; 13; 32; 160; 5760; 8232; 8233; 8239; 8287; 12288; 65279]%N
  || ((8192 <=? c) && (c <=? 8202))%N.

(** The class [\d]: the ten ASCII digits. *)
Definition isDigit (c : N) : bool := ((48 <=? c) && (c <=? 57))%N.

Fixpoint dropWhile (p : N -> bool) (s : jsstring) : jsstring :=
  match s with
  | [] => []
  | c :: s' => if p c then dropWhile p s' else s
  end.

Definition trimStart (s : jsstring) : jsstring := dropWhile isWhiteSpace s.
Definition trimEnd (s : jsstring) : jsstring := rev (trimStart (rev s)).

(** [s.trim()] *)
Definition trim (s : jsstring) : jsstring := trimEnd (trimStart s).

(** [arr.map((x, index) => f(x, index))] *)
Fixpoint map_from (A B : Type) (f : A -> nat -> B) (i : nat) (l : list A)
  : list B :=
  match l with
  | [] => []
  | x :: l' => f x i :: map_from f (S i) l'
  end.

Definition Array_map (A B : Type) (f : A -> nat -> B) (l : list A) : list B :=
  map_from f 0 l.

(** [arr.filter(Boolean)] on an array of elements and [null]s: an element is
    an object, hence truthy; [null] is dropped. *)
Fixpoint filter_Boolean (A : Type) (l : list (option A)) : list A :=
  match l with
  | [] => []
  | None :: l' => filter_Boolean l'
  | Some x :: l' => x :: filter_Boolean l'
  end.

Definition LF : N := 10%N.
Definition dash : N := 45%N.
Definition dot : N := 46%N.
Definition colon : N := 58%N.

End JS.

(* ===================================================================== *)
(** ** The report formatter *)
(* ===================================================================== *)

Module Formatter.
Import JS.

(** What one formatted line shows.  [Heading t] is the [h3] with text [t];
    [LabeledField l v] the row whose first span shows [l] followed by a colon
    and whose second span shows [v]; [BulletItem t] the row with the bullet
    and [t]; [Paragraph t] the [p] with text [t]. *)
Inductive DisplayBlock : Type :=
| Heading (text : jsstring)
| LabeledField (label value : jsstring)
| BulletItem (text : jsstring)
| Paragraph (text : jsstring).

(** A rendered element: the block and its React [key], the line's index. *)
Record Element : Type := mkElement { key : nat; block : DisplayBlock }.

(** The class [[*_#`]]. *)
Definition isMarkdown (c : N) : bool :=
  existsb (N.eqb c) [42; 95; 35; 96]%N.

(** [line.replace(/[*_#`]/g, '')] *)
Definition stripMarkdown (line : jsstring) : jsstring :=
  filter (fun c => negb (isMarkdown c)) line.

(** [/^\d+\./.test(s)]: a greedy run of digits, at least one, then a period. *)
Definition testHeading (s : jsstring) : bool :=
  match s with
  | [] => false
  | c :: _ =>
      isDigit c &&
      match dropWhile isDigit s with
      | d :: _ => N.eqb d dot
      | [] => false
      end
  end.

(** [s.replace(/^\d+\.\s*/, '')]: the match, when there is one, is removed. *)
Definition removeNumericPrefix (s : jsstring) : jsstring :=
  if testHeading s then dropWhile isWhiteSpace (tl (dropWhile isDigit s))
  else s.

Definition cleanLine (line : jsstring) : jsstring :=
  trim (stripMarkdown line).

(** The callback of [text.split('\n').map(...)]. *)
Definition formatLine (line : jsstring) (index : nat) : option Element :=
  let cleanLine := cleanLine line in
  if negb (truthy cleanLine) then None
  else if testHeading cleanLine then
    Some (mkElement index (Heading (removeNumericPrefix cleanLine)))
  else if startsWith cleanLine (js "-") && includes cleanLine colon then
    let (label, valueParts) := split1 colon (substring 1 cleanLine) in
    let value := trim (join colon valueParts) in
    Some (mkElement index (LabeledField (trim label) value))
  else if startsWith cleanLine (js "-") then
    Some (mkElement index (BulletItem (trim (substring 1 cleanLine))))
  else
    Some (mkElement index (Paragraph cleanLine)).

Definition formatAnalysis (text : jsstring) : list Element :=
  filter_Boolean (Array_map formatLine (split LF text)).

End Formatter.

(* ===================================================================== *)
(** ** The page controller *)
(* ===================================================================== *)

Module Controller.
Import JS Formatter.

(** The part of a selected [File] that the upload handler reads. *)
Record File : Type := mkFile { type : jsstring; size : N }.

(** The four [useState] cells of [Home]. *)
Record UIState : Type := mkUI {
  image : option jsstring;
  analysis : jsstring;
  loading : bool;
  error : option jsstring
}.

(** What [analyzeImage] can be rejected with: an [Error] object, which has a
    [message], or any other thrown value. *)
Inductive Thrown : Type :=
| ErrorObject (message : jsstring)
| OtherValue.

Inductive Reader : Type := DefaultReader | UploadReader.

(** Asynchronous operations in flight.  [Reading r failed]: a [FileReader]
    whose [loadend] event is still due; [failed] records that its [error]
    event was delivered, after which [reader.result] is [null]. *)
Inductive Task : Type :=
| FetchDefault
| Reading (r : Reader) (failed : bool)
| Analyzing (imageData : option jsstring).

(** The component between two tasks of the event loop. *)
Record Config : Type := mkConfig { ui : UIState; pending : list Task }.

(** A synchronous run of handler code. *)
Definition Cmd : Type := Config -> Config.

Definition seq (a b : Cmd) : Cmd := fun c => b (a c).
Notation "a ;; b" := (seq a b) (at level 61, right associativity).

Definition skip : Cmd := fun c => c.

Definition setImage (v : option jsstring) : Cmd := fun c =>
  mkConfig (mkUI v (analysis (ui c)) (loading (ui c)) (error (ui c)))
           (pending c).

Definition setAnalysis (v : jsstring) : Cmd := fun c =>
  mkConfig (mkUI (image (ui c)) v (loading (ui c)) (error (ui c)))
           (pending c).

Definition setLoading (v : bool) : Cmd := fun c =>
  mkConfig (mkUI (image (ui c)) (analysis (ui c)) v (error (ui c)))
           (pending c).

Definition setError (v : option jsstring) : Cmd := fun c =>
  mkConfig (mkUI (image (ui c)) (analysis (ui c)) (loading (ui c)) v)
           (pending c).

(** Starting an asynchronous operation: it joins the operations in flight. *)
Definition spawn (t : Task) : Cmd := fun c =>
  mkConfig (ui c) (pending c ++ [t]).

(** The operation at position [i] has completed. *)
Fixpoint removeAt (A : Type) (i : nat) (l : list A) : list A :=
  match l with
  | [] => []
  | x :: l' =>
      match i with
      | O => l'
      | S i' => x :: removeAt i' l'
      end
  end.

Definition settled (i : nat) : Cmd := fun c =>
  mkConfig (ui c) (removeAt i (pending c)).

Definition replaceAt (i : nat) (t : Task) : Cmd := fun c =>
  mkConfig (ui c) (firstn i (pending c) ++ t :: skipn (S i) (pending c)).

Definition DEFAULT_ANALYSIS : jsstring := js
"1. Species Identification:
- Scientific name: Quercus rubra
- Common name: Northern Red Oak
- Family: Fagaceae
- Classification: Deciduous hardwood

2. Physical Characteristics:
- Size: Large (60-75 feet tall, 45-foot spread)
- Leaf Type: Alternate, simple, 7-9 lobed with bristle tips
- Bark: Dark gray-brown, developing distinctive ridges and furrows
- Distinctive Features: Acorns with shallow caps, red-brown fall foliage
- Growth Pattern: Pyramidal when young, rounded crown at maturity

3. Growth Requirements:
- Light Needs: Full sun to partial shade
- Soil Preference: Adaptable, prefers well-drained, slightly acidic soil
- Moisture: Moderate, drought-tolerant once established
- Temperature Hardiness: USDA zones 4-8
- Growth Rate: Moderate to fast (1-2 feet per year)

4. Ecological Information:
- Lifespan: 200-400 years
- Wildlife Value: Acorns provide food for wildlife, nesting habitat for birds
- Native Range: Eastern and Central North America
- Ecosystem Benefits: Carbon sequestration, erosion control, shade
- Seasonal Changes: Brilliant red fall color, winter dormancy

5. Additional Information:
- Uses: Shade tree, timber, wildlife habitat
- Disease Resistance: Moderate, susceptible to oak wilt
- Cultural Significance: Symbol of strength and endurance
- Interesting Facts: Can produce up to 1,000 acorns in a good year
- Conservation Status: Least concern, widespread".

Definition defaultLoadMessage : jsstring := js "Failed to load default image".
Definition wrongTypeMessage : jsstring := js "Please upload a valid image file".
Definition oversizeMessage : jsstring :=
  js "Image size should be less than 20MB".
Definition readFailedMessage : jsstring :=
  js "Failed to read the image file. Please try again.".
Definition analyzeFallbackMessage : jsstring :=
  js "Failed to analyze image. Please try again.".

(** *** [loadDefaultContent], run once by the mount effect *)

(** Up to [await fetch(DEFAULT_IMAGE)]. *)
Definition loadDefaultContent : Cmd :=
  setLoading true ;; spawn FetchDefault.

(** The response was ok and its blob arrived: [reader.readAsDataURL(blob)]. *)
Definition loadDefaultContent_fetched : Cmd :=
  spawn (Reading DefaultReader false).

(** The [catch] block: the fetch failed, the response was not ok, or reading
    the blob failed. *)
Definition loadDefaultContent_catch : Cmd :=
  setError (Some defaultLoadMessage) ;; setLoading false.

Definition default_onloadend (result : option jsstring) : Cmd :=
  setImage result ;; setAnalysis DEFAULT_ANALYSIS ;; setLoading false.

Definition default_onerror : Cmd :=
  setError (Some defaultLoadMessage) ;; setLoading false.

(** *** [handleAnalyze] *)

(** Up to [await analyzeImage(imageData, treePrompt)]. *)
Definition handleAnalyze (imageData : option jsstring) : Cmd :=
  setLoading true ;; setError None ;; spawn (Analyzing imageData).

(** The promise resolved: the rest of [try], then [finally]. *)
Definition handleAnalyze_resolved (result : jsstring) : Cmd :=
  setAnalysis result ;; setLoading false.

(** [err instanceof Error ? err.message : 'Failed to analyze image. ...'] *)
Definition errorMessage (err : Thrown) : jsstring :=
  match err with
  | ErrorObject message => message
  | OtherValue => analyzeFallbackMessage
  end.

(** The promise was rejected: [catch], then [finally]. *)
Definition handleAnalyze_rejected (err : Thrown) : Cmd :=
  setError (Some (errorMessage err)) ;; setLoading false.

(** *** [handleImageUpload] *)

Definition MAX_SIZE : N := (20 * 1024 * 1024)%N.

(** The change handler of the file input; [file] is [e.target.files?.[0]]. *)
Definition handleImageUpload (file : option File) : Cmd :=
  match file with
  | None => skip
  | Some file =>
      if negb (startsWith (type file) (js "image/")) then
        setError (Some wrongTypeMessage)
      else if (MAX_SIZE <? size file)%N then
        setError (Some oversizeMessage)
      else
        spawn (Reading UploadReader false)
  end.

Definition upload_onloadend (result : option jsstring) : Cmd :=
  setImage result ;; setError None ;; handleAnalyze result.

Definition upload_onerror : Cmd :=
  setError (Some readFailedMessage).

Definition onloadend (r : Reader) : option jsstring -> Cmd :=
  match r with
  | DefaultReader => default_onloadend
  | UploadReader => upload_onloadend
  end.

Definition onerror (r : Reader) : Cmd :=
  match r with
  | DefaultReader => default_onerror
  | UploadReader => upload_onerror
  end.

(** *** The event loop *)

(** What the browser can deliver to the component.  [i] is the position of
    the completing operation among those in flight. *)
Inductive Event : Type :=
| FileSelected (file : option File)
| IdentifyClicked
| FetchSettled (i : nat) (ok : bool)
| ReaderError (i : nat)
| ReaderLoadEnd (i : nat) (data : jsstring)
| AnalysisResolved (i : nat) (result : jsstring)
| AnalysisRejected (i : nat) (err : Thrown).

(** One task of the event loop; [None] when the event cannot occur.
    - the file input is always rendered, so a file can be selected at any time;
    - the Identify button is rendered when [image] is truthy and is disabled
      while [loading];
    - a [FileReader] fires [loadend] when the read has completed, with
      success or not; after a failure [error] is fired first and
      [reader.result] is [null]. *)
Definition step (c : Config) (e : Event) : option Config :=
  match e with
  | FileSelected file => Some (handleImageUpload file c)
  | IdentifyClicked =>
      match image (ui c) with
      | Some img =>
          if truthy img && negb (loading (ui c))
          then Some (handleAnalyze (Some img) c)
          else None
      | None => None
      end
  | FetchSettled i ok =>
      match nth_error (pending c) i with
      | Some FetchDefault =>
          Some ((settled i ;;
                 if ok then loadDefaultContent_fetched
                 else loadDefaultContent_catch) c)
      | _ => None
      end
  | ReaderError i =>
      match nth_error (pending c) i with
      | Some (Reading r false) =>
          Some ((replaceAt i (Reading r true) ;; onerror r) c)
      | _ => None
      end
  | ReaderLoadEnd i data =>
      match nth_error (pending c) i with
      | Some (Reading r failed) =>
          Some ((settled i ;;
                 onloadend r (if failed then None else Some data)) c)
      | _ => None
      end
  | AnalysisResolved i result =>
      match nth_error (pending c) i with
      | Some (Analyzing _) =>
          Some ((settled i ;; handleAnalyze_resolved result) c)
      | _ => None
      end
  | AnalysisRejected i err =>
      match nth_error (pending c) i with
      | Some (Analyzing _) =>
          Some ((settled i ;; handleAnalyze_rejected err) c)
      | _ => None
      end
  end.

Fixpoint run (c : Config) (events : list Event) : option Config :=
  match events with
  | [] => Some c
  | e :: events' =>
      match step c e with
      | Some c' => run c' events'
      | None => None
      end
  end.

(** The first render, before the mount effect has run. *)
Definition initial : Config :=
  mkConfig (mkUI None [] false None) [].

(** After the mount effect has started [loadDefaultContent]. *)
Definition mounted : Config := loadDefaultContent initial.

Definition reachable (c : Config) : Prop :=
  exists events, run mounted events = Some c.

(** What the report panel shows: [analysis && formatAnalysis(analysis)]. *)
Definition renderReport (s : UIState) : option (list Element) :=
  if truthy (analysis s) then Some (formatAnalysis (analysis s)) else None.

(** *** The loading flag and the error message *)

(** Loading and an error message do not show together. *)
Definition exclusive (s : UIState) : Prop :=
  ~ (loading s = true /\ error s <> None).

(** The messages that [handleImageUpload] and its reader set without touching
    the loading flag. *)
Definition uploadMessage (m : jsstring) : Prop :=
  m = wrongTypeMessage \/ m = oversizeMessage \/ m = readFailedMessage.

Definition loadingAllows (s : UIState) : Prop :=
  loading s = true ->
  match error s with
  | None => True
  | Some m => uploadMessage m
  end.

End Controller.

(* ===================================================================== *)
(** ** Sample runs *)
(* ===================================================================== *)

Module Scenario.
Import JS Formatter Controller.

Definition picture : jsstring := js "data:image/jpeg;base64,/9j/4AAQSkZJRg==".

Definition pdf : File := mkFile (js "application/pdf") 1024.
Definition photo : File := mkFile (js "image/jpeg") 345678.

(** The default picture is shown with the default report. *)
Definition showDefault : list Event :=
  [FetchSettled 0 true; ReaderLoadEnd 0 picture].

(** The user asks to identify the picture that is shown. *)
Definition identify : list Event := showDefault ++ [IdentifyClicked].

Definition identifying : Config :=
  mkConfig (mkUI (Some picture) DEFAULT_ANALYSIS true None)
           [Analyzing (Some picture)].

(** A file of a wrong type is selected while the default picture loads. *)
Definition wrongFileWhileLoading : list Event := [FileSelected (Some pdf)].

Definition loadingWithError : Config :=
  mkConfig (mkUI None [] true (Some wrongTypeMessage)) [FetchDefault].

End Scenario.

(* ===================================================================== *)
(** ** What is rendered, and what is in flight *)
(* ===================================================================== *)

Module View.
Import JS Formatter Controller.

(** The texts a block shows. *)
Definition blockTexts (b : DisplayBlock) : list jsstring :=
  match b with
  | Heading text => [text]
  | LabeledField label value => [label; value]
  | BulletItem text => [text]
  | Paragraph text => [text]
  end.

(** The element of a line that stands [k] lines further down. *)
Definition shiftKey (k : nat) (e : Element) : Element :=
  mkElement (k + key e) (block e).

(** A string without white space at either end. *)
Definition noLeadingWhite (t : jsstring) : Prop :=
  match t with
  | [] => True
  | c :: _ => isWhiteSpace c = false
  end.

Definition noTrailingWhite (t : jsstring) : Prop := noLeadingWhite (rev t).

(** What the error panel shows: [error && <p>{error}</p>]. *)
Definition errorPanel (s : UIState) : option jsstring :=
  match error s with
  | Some msg => if truthy msg then Some msg else None
  | None => None
  end.

(** An operation whose completion handler ends with [setLoading(false)], or,
    for the default picture, leads to one that does. *)
Definition clearsLoading (t : Task) : bool :=
  match t with
  | FetchDefault => true
  | Reading DefaultReader _ => true
  | Reading UploadReader _ => false
  | Analyzing _ => true
  end.

(** While the loading flag is up, some operation that clears it is in
    flight. *)
Definition loadingBacked (c : Config) : Prop :=
  loading (ui c) = true -> existsb clearsLoading (pending c) = true.

Definition isAnalyzing (t : Task) : bool :=
  match t with
  | Analyzing _ => true
  | _ => false
  end.

(** The number of calls of [analyzeImage] that have not settled. *)
Definition analysesInFlight (c : Config) : nat :=
  List.length (filter isAnalyzing (pending c)).

(** The file passes both checks of [handleImageUpload]. *)
Definition accepted (file : File) : Prop :=
  startsWith (type file) (js "image/") = true
  /\ (size file <= 20 * 1024 * 1024)%N.

End View.

(* ===================================================================== *)
(** ** Facts about the string operations *)
(* ===================================================================== *)

Section StringFacts.
Import JS.

Lemma dropWhile_app_all (p : N -> bool) (a b : jsstring) :
  Forall (fun c => p c = true) a ->
  dropWhile p (a ++ b) = dropWhile p b.
Proof.
  induction 1 as [|c a Hc _ IH]; simpl.
  - reflexivity.
  - rewrite Hc. exact IH.
Qed.

Lemma dropWhile_stop (p : N -> bool) (s : jsstring) :
  match s with [] => True | c :: _ => p c = false end ->
  dropWhile p s = s.
Proof.
  destruct s as [|c s]; simpl; intros H.
  - reflexivity.
  - rewrite H. reflexivity.
Qed.

Lemma trim_all_white (s : jsstring) :
  Forall (fun c => isWhiteSpace c = true) s -> trim s = [].
Proof.
  intros H. unfold trim, trimEnd, trimStart.
  rewrite <- (app_nil_r s) at 1.
  rewrite dropWhile_app_all by exact H.
  reflexivity.
Qed.

(** Splitting at a separator that the first piece does not contain. *)
Lemma split1_first (sep : N) (a b : jsstring) :
  ~ In sep a ->
  split1 sep (a ++ sep :: b) = (a, split sep b).
Proof.
  induction a as [|c a IH]; simpl; intros Hn.
  - unfold split. destruct (split1 sep b) as [w ws].
    rewrite N.eqb_refl. reflexivity.
  - rewrite IH by tauto.
    destruct (N.eqb_spec c sep) as [->|_].
    + exfalso. apply Hn. left. reflexivity.
    + reflexivity.
Qed.

(** Joining the pieces of a split gives the string back. *)
Lemma join_split (sep : N) (s : jsstring) :
  join sep (split sep s) = s.
Proof.
  unfold split.
  induction s as [|c s IH]; simpl.
  - reflexivity.
  - destruct (split1 sep s) as [w ws].
    destruct (N.eqb_spec c sep) as [->|_].
    + simpl. simpl in IH. rewrite IH. reflexivity.
    + simpl. simpl in IH. destruct ws as [|w' ws].
      * rewrite IH. reflexivity.
      * rewrite <- IH. reflexivity.
Qed.

(** A string that includes [c] has a first occurrence of it. *)
Lemma includes_first (s : jsstring) (c : N) :
  includes s c = true ->
  exists a b, s = a ++ c :: b /\ ~ In c a.
Proof.
  unfold includes.
  induction s as [|d s IH]; simpl; intros H.
  - discriminate.
  - destruct (N.eqb_spec c d) as [->|Hne].
    + exists [], s. split; [reflexivity | intros []].
    + simpl in H. destruct (IH H) as (a & b & -> & Hn).
      exists (d :: a), b. split; [reflexivity|].
      intros [Hd|Hi]; [congruence | exact (Hn Hi)].
Qed.

Lemma split1_Forall (P : N -> Prop) (sep : N) (s : jsstring) :
  Forall P s ->
  Forall P (fst (split1 sep s)) /\ Forall (Forall P) (snd (split1 sep s)).
Proof.
  induction 1 as [|c s Hc _ [IHw IHws]]; simpl.
  - split; constructor.
  - destruct (split1 sep s) as [w ws]. simpl in IHw, IHws.
    destruct (N.eqb c sep); simpl; split; auto.
Qed.

Lemma split_Forall (P : N -> Prop) (sep : N) (s : jsstring) :
  Forall P s -> Forall (Forall P) (split sep s).
Proof.
  intros H. destruct (split1_Forall sep H) as [Hw Hws].
  unfold split. destruct (split1 sep s) as [w ws].
  constructor; assumption.
Qed.

(** Every string is its leading white space followed by a rest that does not
    begin with white space. *)
Lemma leading_white (s : jsstring) :
  exists ws text,
    s = ws ++ text
    /\ Forall (fun c => isWhiteSpace c = true) ws
    /\ match text with [] => True | c :: _ => isWhiteSpace c = false end.
Proof.
  induction s as [|c s (ws & text & Hs & Hws & Htext)].
  - exists [], []. repeat split. constructor.
  - destruct (isWhiteSpace c) eqn:Hc.
    + exists (c :: ws), text. repeat split.
      * simpl. rewrite Hs. reflexivity.
      * constructor; assumption.
      * exact Htext.
    + exists [], (c :: s). repeat split.
      * constructor.
      * exact Hc.
Qed.

(** Dropping from the front stops at the first character that is kept. *)
Lemma dropWhile_keeps (p : N -> bool) (l r : jsstring) (c : N) :
  p c = false ->
  exists l', dropWhile p (l ++ c :: r) = l' ++ c :: r.
Proof.
  intros Hc. induction l as [|d l [l' IH]]; simpl.
  - exists []. rewrite Hc. reflexivity.
  - destruct (p d).
    + exists l'. exact IH.
    + exists (d :: l). reflexivity.
Qed.

(** Trimming keeps everything up to a character that is not white space,
    when the string does not begin with white space. *)
Lemma trim_keeps_prefix (a b : jsstring) (c : N) :
  isWhiteSpace c = false ->
  match a with [] => True | d :: _ => isWhiteSpace d = false end ->
  exists b', trim (a ++ c :: b) = a ++ c :: b'.
Proof.
  intros Hc Ha. unfold trim, trimEnd, trimStart.
  rewrite (dropWhile_stop isWhiteSpace (a ++ c :: b))
    by (destruct a; [exact Hc | exact Ha]).
  rewrite rev_app_distr. simpl. rewrite <- app_assoc. simpl.
  destruct (@dropWhile_keeps isWhiteSpace (rev b) (rev a) c Hc) as [l' ->].
  exists (rev l').
  rewrite rev_app_distr. simpl. rewrite rev_involutive.
  rewrite <- app_assoc. reflexivity.
Qed.

Lemma digit_not_white (c : N) :
  isDigit c = true -> isWhiteSpace c = false.
Proof.
  unfold isDigit. intros H. apply andb_true_iff in H. destruct H as [Hlo Hhi].
  apply N.leb_le in Hlo. apply N.leb_le in Hhi.
  assert (Hc : (c = 48 \/ c = 49 \/ c = 50 \/ c = 51 \/ c = 52 \/ c = 53
                \/ c = 54 \/ c = 55 \/ c = 56 \/ c = 57)%N) by lia.
  repeat (destruct Hc as [->|Hc]; [reflexivity|]).
  subst c. reflexivity.
Qed.

End StringFacts.

(* ===================================================================== *)
(** ** Facts about the formatter *)
(* ===================================================================== *)

Section FormatterFacts.
Import JS Formatter.

(** The test of the heading pattern, read as the pattern is written: one or
    more digits, then a period. *)
Lemma testHeading_spec (s : jsstring) :
  testHeading s = true <->
  exists digits rest,
    digits <> [] /\ Forall (fun c => isDigit c = true) digits
    /\ s = digits ++ dot :: rest.
Proof.
  split.
  - destruct s as [|c s]; [discriminate|].
    unfold testHeading. intros H.
    apply andb_true_iff in H. destruct H as [Hc H].
    simpl in H. rewrite Hc in H.
    assert (Hrun : exists ds rest,
               Forall (fun c => isDigit c = true) ds /\ s = ds ++ dot :: rest).
    { clear Hc. induction s as [|d s IH]; simpl in H; [discriminate|].
      destruct (isDigit d) eqn:Hd.
      - destruct (IH H) as (ds & rest & Hds & ->).
        exists (d :: ds), rest. split; [constructor; assumption | reflexivity].
      - apply N.eqb_eq in H. subst d.
        exists [], s. split; [constructor | reflexivity]. }
    destruct Hrun as (ds & rest & Hds & ->).
    exists (c :: ds), rest. repeat split.
    + discriminate.
    + constructor; assumption.
  - intros (digits & rest & Hne & Hdigits & ->).
    destruct digits as [|d digits]; [contradiction|].
    unfold testHeading. rewrite <- app_comm_cons.
    rewrite (Forall_inv Hdigits). rewrite app_comm_cons.
    rewrite dropWhile_app_all by exact Hdigits.
    reflexivity.
Qed.

(** What the tests of [formatLine] see when the line, once the markdown
    characters are removed, starts with a dash and holds a colon: trimming
    keeps both. *)
Lemma stripped_dash_colon (line : jsstring) :
  startsWith (stripMarkdown line) (js "-") = true ->
  includes (stripMarkdown line) colon = true ->
  startsWith (cleanLine line) (js "-") = true
  /\ includes (cleanLine line) colon = true.
Proof.
  unfold cleanLine. intros Hdash Hcolon.
  destruct (stripMarkdown line) as [|c rest]; [discriminate|].
  simpl in Hdash. rewrite andb_true_r in Hdash.
  apply N.eqb_eq in Hdash. subst c.
  unfold includes in Hcolon. simpl in Hcolon.
  destruct (includes_first rest colon Hcolon) as (a & b & -> & _).
  destruct (@trim_keeps_prefix (dash :: a) b colon) as [b' Hb'];
    [reflexivity | reflexivity |].
  rewrite <- !app_comm_cons in Hb'. change 45%N with dash.
  rewrite Hb'. split.
  - reflexivity.
  - unfold includes. apply existsb_exists. exists colon. split.
    + right. apply in_or_app. right. left. reflexivity.
    + apply N.eqb_refl.
Qed.

(** The same for a line that, once the markdown characters are removed,
    begins with digits and a period. *)
Lemma stripped_digits_dot (line digits rest : jsstring) :
  digits <> [] ->
  Forall (fun c => isDigit c = true) digits ->
  stripMarkdown line = digits ++ dot :: rest ->
  exists rest', cleanLine line = digits ++ dot :: rest'.
Proof.
  intros Hne Hdigits Hstripped. unfold cleanLine. rewrite Hstripped.
  apply trim_keeps_prefix.
  - reflexivity.
  - destruct digits as [|d digits]; [exact I|].
    apply digit_not_white. exact (Forall_inv Hdigits).
Qed.

(** A line made of markdown punctuation and white space cleans to nothing. *)
Lemma cleanLine_markdown_white (line : jsstring) :
  Forall (fun c => isMarkdown c = true \/ isWhiteSpace c = true) line ->
  cleanLine line = [].
Proof.
  intros H. unfold cleanLine. apply trim_all_white.
  unfold stripMarkdown.
  induction H as [|c line Hc _ IH]; simpl.
  - constructor.
  - destruct (isMarkdown c) eqn:Hm; simpl.
    + exact IH.
    + constructor; [|exact IH].
      destruct Hc as [Hc|Hc]; [discriminate | exact Hc].
Qed.

Lemma filter_Boolean_all_None (A B : Type) (f : A -> nat -> option B)
      (l : list A) (i : nat) :
  Forall (fun x => forall j, f x j = None) l ->
  filter_Boolean (map_from f i l) = [].
Proof.
  intros H. revert i.
  induction H as [|x l Hx _ IH]; simpl; intros i.
  - reflexivity.
  - rewrite Hx. apply IH.
Qed.

End FormatterFacts.

(* ===================================================================== *)
(** ** Properties of the formatter *)
(* ===================================================================== *)

Section FormatterProperties.
Import JS Formatter Controller.

(** The labelled-field branch on a cleaned line of known shape. *)
Lemma formatLine_dash_colon (line : jsstring) (index : nat)
      (label value : jsstring) :
  cleanLine line = dash :: label ++ colon :: value ->
  ~ In colon label ->
  formatLine line index
  = Some (mkElement index (LabeledField (trim label) (trim value))).
Proof.
  intros Hclean Hlabel.
  unfold formatLine. rewrite Hclean.
  change (negb (truthy (dash :: label ++ colon :: value))) with false.
  cbv iota.
  replace (testHeading (dash :: label ++ colon :: value)) with false
    by reflexivity.
  replace (startsWith (dash :: label ++ colon :: value) (js "-")) with true
    by reflexivity.
  assert (Hinc : includes (dash :: label ++ colon :: value) colon = true).
  { unfold includes. apply existsb_exists. exists colon. split.
    - right. apply in_or_app. right. left. reflexivity.
    - apply N.eqb_refl. }
  rewrite Hinc. cbv [andb].
  change (substring 1 (dash :: label ++ colon :: value))
    with (label ++ colon :: value).
  rewrite split1_first by exact Hlabel.
  rewrite join_split. reflexivity.
Qed.



(** A value that holds a colon. *)
Example format_value_with_colon :
  formatLine (js "- **Crown ratio**: 3:1 wide ") 7
  = Some (mkElement 7 (LabeledField (js "Crown ratio") (js "3:1 wide"))).
Proof.
  apply (@formatLine_dash_colon _ 7 (js " Crown ratio") (js " 3:1 wide")).
  - reflexivity.
  - vm_compute. intuition discriminate.
Qed.

(** The heading branch on a cleaned line of known shape. *)
Lemma formatLine_digits_dot (line : jsstring) (index : nat)
      (digits ws text : jsstring) :
  digits <> [] ->
  Forall (fun c => isDigit c = true) digits ->
  Forall (fun c => isWhiteSpace c = true) ws ->
  match text with [] => True | c :: _ => isWhiteSpace c = false end ->
  cleanLine line = digits ++ dot :: ws ++ text ->
  formatLine line index = Some (mkElement index (Heading text)).
Proof.
  intros Hne Hdigits Hws Htext Hclean.
  assert (Htest : testHeading (digits ++ dot :: ws ++ text) = true).
  { destruct digits as [|d digits]; [contradiction|].
    unfold testHeading. rewrite <- app_comm_cons.
    rewrite (Forall_inv Hdigits). rewrite app_comm_cons.
    rewrite dropWhile_app_all by exact Hdigits.
    simpl. reflexivity. }
  unfold formatLine. rewrite Hclean.
  replace (negb (truthy (digits ++ dot :: ws ++ text))) with false
    by (destruct digits; [contradiction | reflexivity]).
  cbv iota. rewrite Htest.
  unfold removeNumericPrefix. rewrite Htest.
  rewrite dropWhile_app_all by exact Hdigits.
  simpl. rewrite dropWhile_app_all by exact Hws.
  rewrite dropWhile_stop by exact Htext.
  reflexivity.
Qed.

(** C6.  A line whose cleaned text begins with one or more digits and a
    period becomes a Heading block; its text is what follows the period
    without the white space [ws] that comes first: digits, period and that
    white space are removed.  In particular the line
    [1. Species Identification:] gives the heading
    [Species Identification:]. *)
Theorem formatLine_heading :
  (forall (line : jsstring) (index : nat) (digits rest : jsstring),
      digits <> [] ->
      Forall (fun c => isDigit c = true) digits ->
      cleanLine line = digits ++ dot :: rest ->
      exists ws text,
        rest = ws ++ text
        /\ Forall (fun c => isWhiteSpace c = true) ws
        /\ match text with [] => True | c :: _ => isWhiteSpace c = false end
        /\ formatLine line index = Some (mkElement index (Heading text)))
  /\ formatAnalysis (js "1. Species Identification:")
     = [mkElement 0 (Heading (js "Species Identification:"))].
Proof.
  split; [|reflexivity].
  intros line index digits rest Hne Hdigits Hclean.
  destruct (leading_white rest) as (ws & text & Hrest & Hws & Htext).
  exists ws, text. repeat split; try assumption.
  apply (@formatLine_digits_dot line index digits ws text); try assumption.
  rewrite Hclean, Hrest. reflexivity.
Qed.

Lemma formatLine_heading_witness :
  exists ws text,
    js "   Growth Requirements:" = ws ++ text
    /\ Forall (fun c => isWhiteSpace c = true) ws
    /\ match text with [] => True | c :: _ => isWhiteSpace c = false end
    /\ formatLine (js "## 13.   Growth Requirements:") 5
       = Some (mkElement 5 (Heading text)).
Proof.
  apply (proj1 formatLine_heading
               (js "## 13.   Growth Requirements:") 5
               (js "13") (js "   Growth Requirements:")).
  - discriminate.
  - repeat constructor.
  - reflexivity.
Defined.

(** The whole default report: five headings, each with five fields. *)
Example format_default_kinds :
  map (fun e => match block e with
                | Heading _ => 0 | LabeledField _ _ => 1
                | BulletItem _ => 2 | Paragraph _ => 3
                end)
      (formatAnalysis DEFAULT_ANALYSIS)
  = [0; 1; 1; 1; 1; 0; 1; 1; 1; 1; 1; 0; 1; 1; 1; 1; 1;
     0; 1; 1; 1; 1; 1; 0; 1; 1; 1; 1; 1].
Proof. reflexivity. Qed.

(** The other two kinds of block. *)
Example format_bullet_and_paragraph :
  formatAnalysis (js "- Acorns provide food
Oaks are *long-lived*.")
  = [mkElement 0 (BulletItem (js "Acorns provide food"));
     mkElement 1 (Paragraph (js "Oaks are long-lived."))].
Proof. reflexivity. Qed.

(** C10.  A line made only of the markdown characters and white space gives
    no block, and a report made only of such characters formats to nothing. *)
Theorem formatLine_markdown_only (line : jsstring) (index : nat) :
  Forall (fun c => isMarkdown c = true \/ isWhiteSpace c = true) line ->
  formatLine line index = None /\ formatAnalysis line = [].
Proof.
  intros H. split.
  - unfold formatLine. rewrite (cleanLine_markdown_white H). reflexivity.
  - unfold formatAnalysis, Array_map.
    apply filter_Boolean_all_None.
    eapply Forall_impl; [|exact (split_Forall LF H)].
    intros piece Hpiece j. unfold formatLine.
    rewrite (cleanLine_markdown_white Hpiece). reflexivity.
Qed.

Lemma formatLine_markdown_only_witness :
  formatLine (js "  ** __ ## `` ") 3 = None
  /\ formatAnalysis (js "  ** __ ## `` ") = [].
Proof.
  apply (@formatLine_markdown_only (js "  ** __ ## `` ") 3).
  repeat (apply Forall_cons;
          [first [left; reflexivity | right; reflexivity]|]).
  apply Forall_nil.
Defined.



End FormatterProperties.

(* ===================================================================== *)
(** ** Properties of the page controller *)
(* ===================================================================== *)

Section ControllerProperties.
Import JS Formatter Controller Scenario.

(** C3.  A selected file whose declared type does not start with [image/]
    sets the wrong-type message and nothing else: image, report and loading
    flag are as before and no read or analysis is started. *)
Theorem upload_wrong_type (c : Config) (file : File) :
  startsWith (type file) (js "image/") = false ->
  step c (FileSelected (Some file))
  = Some (mkConfig (mkUI (image (ui c)) (analysis (ui c)) (loading (ui c))
                         (Some (js "Please upload a valid image file")))
                   (pending c)).
Proof.
  intros Htype. unfold step, handleImageUpload.
  rewrite Htype. reflexivity.
Qed.

Lemma upload_wrong_type_witness :
  step mounted (FileSelected (Some (mkFile (js "application/pdf") 1024)))
  = Some (mkConfig (mkUI None [] true
                         (Some (js "Please upload a valid image file")))
                   [FetchDefault]).
Proof.
  apply (@upload_wrong_type mounted (mkFile (js "application/pdf") 1024)).
  reflexivity.
Defined.

(** C4.  A selected file of an image type whose size is above
    20 * 1024 * 1024 bytes sets the oversize message, which differs from the
    wrong-type message, and nothing else: no read and no analysis is
    started. *)
Theorem upload_oversize (c : Config) (file : File) :
  startsWith (type file) (js "image/") = true ->
  (20 * 1024 * 1024 < size file)%N ->
  step c (FileSelected (Some file))
  = Some (mkConfig (mkUI (image (ui c)) (analysis (ui c)) (loading (ui c))
                         (Some (js "Image size should be less than 20MB")))
                   (pending c))
  /\ js "Image size should be less than 20MB"
     <> js "Please upload a valid image file".
Proof.
  intros Htype Hsize. split.
  - unfold step, handleImageUpload. rewrite Htype. cbn [negb].
    replace (MAX_SIZE <? size file)%N with true
      by (symmetry; apply N.ltb_lt; exact Hsize).
    reflexivity.
  - discriminate.
Qed.

Lemma upload_oversize_witness :
  step mounted (FileSelected (Some (mkFile (js "image/png") 20971521)))
  = Some (mkConfig (mkUI None [] true
                         (Some (js "Image size should be less than 20MB")))
                   [FetchDefault])
  /\ js "Image size should be less than 20MB"
     <> js "Please upload a valid image file".
Proof.
  apply (@upload_oversize mounted (mkFile (js "image/png") 20971521)).
  - reflexivity.
  - reflexivity.
Defined.

(** A file of exactly 20 MiB is read. *)
Example upload_at_limit :
  step mounted (FileSelected (Some (mkFile (js "image/png") 20971520)))
  = Some (mkConfig (mkUI None [] true None)
                   [FetchDefault; Reading UploadReader false]).
Proof. reflexivity. Qed.

(** C9.  The type is checked before the size: a file of a wrong type that is
    also too large gets the wrong-type message, not the oversize one. *)
Theorem upload_type_before_size (c : Config) (file : File) :
  startsWith (type file) (js "image/") = false ->
  (20 * 1024 * 1024 < size file)%N ->
  error (ui (handleImageUpload (Some file) c)) = Some wrongTypeMessage
  /\ error (ui (handleImageUpload (Some file) c)) <> Some oversizeMessage.
Proof.
  intros Htype _. unfold handleImageUpload. rewrite Htype. simpl.
  split; [reflexivity | discriminate].
Qed.

Lemma upload_type_before_size_witness :
  error (ui (handleImageUpload
               (Some (mkFile (js "video/mp4") 99999999)) mounted))
  = Some wrongTypeMessage
  /\ error (ui (handleImageUpload
                  (Some (mkFile (js "video/mp4") 99999999)) mounted))
     <> Some oversizeMessage.
Proof.
  apply (@upload_type_before_size mounted (mkFile (js "video/mp4") 99999999)).
  - reflexivity.
  - reflexivity.
Defined.



Example identify_reaches_identifying :
  run mounted identify = Some identifying.
Proof. reflexivity. Qed.

(** C8.  A failed analysis changes only the error and the loading flag: the
    report text, hence the report that is rendered, is the one from before
    the failure, and starting the analysis did not change it either. *)
Theorem analysis_failure_keeps_report (c c' : Config) (i : nat)
        (err : Thrown) :
  step c (AnalysisRejected i err) = Some c' ->
  ui c' = mkUI (image (ui c)) (analysis (ui c)) false
               (Some (errorMessage err))
  /\ renderReport (ui c') = renderReport (ui c)
  /\ forall imageData,
       analysis (ui (handleAnalyze imageData c)) = analysis (ui c).
Proof.
  simpl. intros Hstep.
  destruct (nth_error (pending c) i) as [[| |imageData]|]; try discriminate.
  injection Hstep as <-. repeat split.
Qed.

Lemma analysis_failure_keeps_report_witness :
  ui (mkConfig (mkUI (Some picture) DEFAULT_ANALYSIS false
                     (Some (js "quota exceeded"))) [])
  = mkUI (Some picture) DEFAULT_ANALYSIS false (Some (js "quota exceeded"))
  /\ renderReport (mkUI (Some picture) DEFAULT_ANALYSIS false
                        (Some (js "quota exceeded")))
     = renderReport (ui identifying)
  /\ forall imageData,
       analysis (ui (handleAnalyze imageData identifying))
       = analysis (ui identifying).
Proof.
  apply (@analysis_failure_keeps_report identifying
           (mkConfig (mkUI (Some picture) DEFAULT_ANALYSIS false
                           (Some (js "quota exceeded"))) [])
           0 (ErrorObject (js "quota exceeded"))).
  reflexivity.
Defined.

(** *** Loading and error over all runs *)

Example wrong_file_while_loading :
  run mounted wrongFileWhileLoading = Some loadingWithError.
Proof. reflexivity. Qed.

(** The same while an analysis is in flight: the upload button stays
    enabled. *)
Example wrong_file_while_identifying :
  option_map ui (run mounted (identify ++ [FileSelected (Some pdf)]))
  = Some (mkUI (Some picture) DEFAULT_ANALYSIS true (Some wrongTypeMessage)).
Proof. reflexivity. Qed.

(** A read of an uploaded file that fails: [error] shows the message, then
    [loadend] clears it and starts an analysis of the [null] result. *)
Example upload_read_failure :
  run mounted (showDefault ++ [FileSelected (Some photo); ReaderError 0])
  = Some (mkConfig (mkUI (Some picture) DEFAULT_ANALYSIS false
                         (Some readFailedMessage))
                   [Reading UploadReader true])
  /\ run mounted (showDefault ++ [FileSelected (Some photo); ReaderError 0;
                                  ReaderLoadEnd 0 picture])
     = Some (mkConfig (mkUI None DEFAULT_ANALYSIS true None) [Analyzing None]).
Proof. split; reflexivity. Qed.

Lemma loadingAllows_not_loading (s : UIState) :
  loading s = false -> loadingAllows s.
Proof. unfold loadingAllows. intros ->. discriminate. Qed.

Lemma loadingAllows_no_error (s : UIState) :
  error s = None -> loadingAllows s.
Proof. unfold loadingAllows. intros -> _. exact I. Qed.

Lemma handleAnalyze_loadingAllows (imageData : option jsstring) (c : Config) :
  loadingAllows (ui (handleAnalyze imageData c)).
Proof. apply loadingAllows_no_error. reflexivity. Qed.

Lemma handleImageUpload_loadingAllows (file : option File) (c : Config) :
  loadingAllows (ui c) -> loadingAllows (ui (handleImageUpload file c)).
Proof.
  intros Hc. unfold handleImageUpload.
  destruct file as [file|]; [|exact Hc].
  destruct (negb (startsWith (type file) (js "image/"))).
  - intros _. left. reflexivity.
  - destruct (MAX_SIZE <? size file)%N.
    + intros _. right. left. reflexivity.
    + exact Hc.
Qed.

(** Every task of the event loop keeps [loadingAllows]. *)
Lemma step_loadingAllows (c c' : Config) (e : Event) :
  loadingAllows (ui c) -> step c e = Some c' -> loadingAllows (ui c').
Proof.
  intros Hc Hstep. destruct e as [file| |i ok|i|i data|i result|i err];
    unfold step in Hstep.
  - injection Hstep as <-. apply handleImageUpload_loadingAllows. exact Hc.
  - destruct (image (ui c)) as [img|]; [|discriminate].
    destruct (truthy img && negb (loading (ui c))); [|discriminate].
    injection Hstep as <-. apply handleAnalyze_loadingAllows.
  - destruct (nth_error (pending c) i) as [[| |]|]; try discriminate.
    injection Hstep as <-. destruct ok.
    + exact Hc.
    + apply loadingAllows_not_loading. reflexivity.
  - destruct (nth_error (pending c) i) as [[|r [|]|]|]; try discriminate.
    injection Hstep as <-. destruct r.
    + apply loadingAllows_not_loading. reflexivity.
    + intros _. right. right. reflexivity.
  - destruct (nth_error (pending c) i) as [[|r failed|]|]; try discriminate.
    injection Hstep as <-. destruct r.
    + apply loadingAllows_not_loading. reflexivity.
    + apply loadingAllows_no_error. reflexivity.
  - destruct (nth_error (pending c) i) as [[| |]|]; try discriminate.
    injection Hstep as <-. apply loadingAllows_not_loading. reflexivity.
  - destruct (nth_error (pending c) i) as [[| |]|]; try discriminate.
    injection Hstep as <-. apply loadingAllows_not_loading. reflexivity.
Qed.

Lemma run_loadingAllows (events : list Event) (c c' : Config) :
  loadingAllows (ui c) -> run c events = Some c' -> loadingAllows (ui c').
Proof.
  revert c. induction events as [|e events IH]; simpl; intros c Hc Hrun.
  - injection Hrun as <-. exact Hc.
  - destruct (step c e) as [c1|] eqn:Hstep; [|discriminate].
    apply (IH c1); [|exact Hrun].
    exact (@step_loadingAllows c c1 e Hc Hstep).
Qed.

(** C1, as stated, fails: selecting a file of a wrong type while the default
    picture loads leaves the loading flag up and an error message set. *)
Lemma loading_error_not_exclusive :
  ~ (forall c, reachable c -> exclusive (ui c)).
Proof.
  intros Hall.
  apply (Hall loadingWithError).
  - exists wrongFileWhileLoading. reflexivity.
  - split; [reflexivity | discriminate].
Qed.

(** C1, amended.  In every reachable state where the loading flag is up, the
    error is absent or is one of the three messages of the upload path
    (wrong type, oversize, failed read), which are set without touching the
    loading flag. *)
Theorem loading_error_upload_only (c : Config) :
  reachable c ->
  loading (ui c) = true ->
  error (ui c) = None
  \/ error (ui c) = Some (js "Please upload a valid image file")
  \/ error (ui c) = Some (js "Image size should be less than 20MB")
  \/ error (ui c)
     = Some (js "Failed to read the image file. Please try again.").
Proof.
  intros [events Hrun] Hloading.
  assert (Hinv : loadingAllows (ui c)).
  { apply (@run_loadingAllows events mounted c); [|exact Hrun].
    apply loadingAllows_no_error. reflexivity. }
  specialize (Hinv Hloading).
  destruct (error (ui c)) as [m|]; [|left; reflexivity].
  destruct Hinv as [ -> | [ -> | -> ] ]; auto.
Qed.

Lemma loading_error_upload_only_witness :
  error (ui loadingWithError) = None
  \/ error (ui loadingWithError) = Some (js "Please upload a valid image file")
  \/ error (ui loadingWithError)
     = Some (js "Image size should be less than 20MB")
  \/ error (ui loadingWithError)
     = Some (js "Failed to read the image file. Please try again.").
Proof.
  apply (@loading_error_upload_only loadingWithError).
  - exists wrongFileWhileLoading. reflexivity.
  - reflexivity.
Defined.

(** The third message: a read that fails while an analysis is in flight. *)
Example read_error_while_identifying :
  option_map ui
    (run mounted (identify ++ [FileSelected (Some photo); ReaderError 1]))
  = Some (mkUI (Some picture) DEFAULT_ANALYSIS true (Some readFailedMessage)).
Proof. reflexivity. Qed.

End ControllerProperties.

(* ===================================================================== *)
(** ** More facts about trimming and splitting *)
(* ===================================================================== *)

Section TrimFacts.
Import JS Formatter View.

Lemma dropWhile_noLeading (s : jsstring) :
  noLeadingWhite (dropWhile isWhiteSpace s).
Proof.
  induction s as [|c s IH]; simpl.
  - exact I.
  - destruct (isWhiteSpace c) eqn:Hc; [exact IH | exact Hc].
Qed.

Lemma dropWhile_suffix (p : N -> bool) (s : jsstring) :
  exists a, s = a ++ dropWhile p s /\ Forall (fun c => p c = true) a.
Proof.
  induction s as [|c s (a & Hs & Ha)]; simpl.
  - exists []. split; [reflexivity | constructor].
  - destruct (p c) eqn:Hc.
    + exists (c :: a). split.
      * simpl. rewrite <- Hs. reflexivity.
      * constructor; assumption.
    + exists []. split; [reflexivity | constructor].
Qed.

Lemma dropWhile_nil_Forall (p : N -> bool) (s : jsstring) :
  dropWhile p s = [] -> Forall (fun c => p c = true) s.
Proof.
  intros H. destruct (dropWhile_suffix p s) as (a & Hs & Ha).
  rewrite H, app_nil_r in Hs. subst a. exact Ha.
Qed.

Lemma dropWhile_app_cases (p : N -> bool) (a b : jsstring) :
  dropWhile p (a ++ b)
  = match dropWhile p a with
    | [] => dropWhile p b
    | _ :: _ => dropWhile p a ++ b
    end.
Proof.
  induction a as [|c a IH]; simpl.
  - reflexivity.
  - destruct (p c); [exact IH | reflexivity].
Qed.

Lemma noTrailing_suffix (a t : jsstring) :
  noTrailingWhite (a ++ t) -> noTrailingWhite t.
Proof.
  unfold noTrailingWhite. rewrite rev_app_distr.
  destruct (rev t) as [|x r]; simpl; intros H; [exact I | exact H].
Qed.

Lemma trimEnd_noTrailing (s : jsstring) : noTrailingWhite (trimEnd s).
Proof.
  unfold noTrailingWhite, trimEnd, trimStart.
  rewrite rev_involutive. apply dropWhile_noLeading.
Qed.

Lemma trimEnd_noLeading (s : jsstring) :
  noLeadingWhite s -> noLeadingWhite (trimEnd s).
Proof.
  intros Hs. unfold trimEnd, trimStart.
  destruct (dropWhile_suffix isWhiteSpace (rev s)) as (a & Hrev & _).
  assert (Hsplit : s = rev (dropWhile isWhiteSpace (rev s)) ++ rev a).
  { rewrite <- rev_app_distr, <- Hrev, rev_involutive. reflexivity. }
  destruct (rev (dropWhile isWhiteSpace (rev s))) as [|x r]; [exact I|].
  rewrite Hsplit in Hs. exact Hs.
Qed.

Lemma trim_noLeading (s : jsstring) : noLeadingWhite (trim s).
Proof.
  unfold trim. apply trimEnd_noLeading. apply dropWhile_noLeading.
Qed.

Lemma trim_noTrailing (s : jsstring) : noTrailingWhite (trim s).
Proof. unfold trim. apply trimEnd_noTrailing. Qed.

(** A string without white space at its ends is left alone by [trim]. *)
Lemma trim_fixed (t : jsstring) :
  noLeadingWhite t -> noTrailingWhite t -> trim t = t.
Proof.
  intros Hl Ht. unfold trim, trimEnd, trimStart.
  rewrite (dropWhile_stop isWhiteSpace t) by exact Hl.
  rewrite (dropWhile_stop isWhiteSpace (rev t)) by exact Ht.
  apply rev_involutive.
Qed.

Lemma trim_nil_inv (s : jsstring) :
  trim s = [] -> Forall (fun c => isWhiteSpace c = true) s.
Proof.
  unfold trim, trimEnd. intros H.
  assert (Hd : trimStart (rev (trimStart s)) = []).
  { rewrite <- (rev_involutive (trimStart (rev (trimStart s)))).
    rewrite H. reflexivity. }
  apply dropWhile_nil_Forall in Hd.
  assert (Ht : trimStart s = []).
  { pose proof (dropWhile_noLeading s) as Hl. unfold trimStart in *.
    destruct (dropWhile isWhiteSpace s) as [|c t]; [reflexivity|].
    simpl in Hl.
    assert (Hin : In c (rev (c :: t))) by (apply in_rev; rewrite rev_involutive; left; reflexivity).
    rewrite Forall_forall in Hd. rewrite (Hd c Hin) in Hl. discriminate. }
  apply dropWhile_nil_Forall. exact Ht.
Qed.

(** White space around a string does not change what [trim] gives. *)
Lemma trim_surround (w1 s w2 : jsstring) :
  Forall (fun c => isWhiteSpace c = true) w1 ->
  Forall (fun c => isWhiteSpace c = true) w2 ->
  trim (w1 ++ s ++ w2) = trim s.
Proof.
  intros H1 H2. unfold trim, trimStart.
  rewrite dropWhile_app_all by exact H1.
  rewrite dropWhile_app_cases.
  destruct (dropWhile isWhiteSpace s) as [|c t] eqn:Hs.
  - rewrite <- (app_nil_r w2), dropWhile_app_all by exact H2. reflexivity.
  - unfold trimEnd, trimStart. rewrite rev_app_distr.
    rewrite dropWhile_app_all; [reflexivity|].
    apply Forall_rev. exact H2.
Qed.

Lemma dropWhile_incl (p : N -> bool) (s : jsstring) (c : N) :
  In c (dropWhile p s) -> In c s.
Proof.
  destruct (dropWhile_suffix p s) as (a & Hs & _).
  intros H. rewrite Hs. apply in_or_app. right. exact H.
Qed.

Lemma trim_incl (s : jsstring) (c : N) : In c (trim s) -> In c s.
Proof.
  unfold trim, trimEnd, trimStart. intros H.
  apply in_rev in H. apply dropWhile_incl in H. apply in_rev in H.
  apply dropWhile_incl in H. exact H.
Qed.

Lemma trim_Forall (P : N -> Prop) (s : jsstring) :
  Forall P s -> Forall P (trim s).
Proof.
  rewrite !Forall_forall. intros H c Hc. apply H. apply trim_incl. exact Hc.
Qed.

Lemma includes_false (s : jsstring) (c : N) :
  ~ In c s -> includes s c = false.
Proof.
  intros Hn. unfold includes.
  destruct (existsb (N.eqb c) s) eqn:He; [|reflexivity].
  apply existsb_exists in He. destruct He as (d & Hd & Heq).
  apply N.eqb_eq in Heq. subst d. contradiction.
Qed.

Lemma includes_false_inv (s : jsstring) (c : N) :
  includes s c = false -> ~ In c s.
Proof.
  unfold includes. intros He Hin.
  assert (Ht : existsb (N.eqb c) s = true).
  { apply existsb_exists. exists c. split; [exact Hin | apply N.eqb_refl]. }
  rewrite Ht in He. discriminate.
Qed.

Lemma split1_fst_no_sep (sep : N) (s : jsstring) :
  ~ In sep (fst (split1 sep s)).
Proof.
  induction s as [|c s IH]; simpl.
  - intros [].
  - destruct (split1 sep s) as [w ws]. simpl in IH.
    destruct (N.eqb_spec c sep) as [->|Hne]; simpl.
    + intros [].
    + intros [Hc|Hin]; [congruence | exact (IH Hin)].
Qed.

Lemma join_Forall (P : N -> Prop) (sep : N) (parts : list jsstring) :
  P sep -> Forall (Forall P) parts -> Forall P (join sep parts).
Proof.
  intros Hsep H. induction H as [|w ws Hw Hws IH]; simpl.
  - constructor.
  - destruct ws as [|w' ws]; [exact Hw|].
    apply Forall_app. split; [exact Hw|].
    constructor; [exact Hsep | exact IH].
Qed.

Lemma split_app (sep : N) (a b : jsstring) :
  split sep (a ++ sep :: b) = split sep a ++ split sep b.
Proof.
  unfold split. induction a as [|c a IH]; simpl.
  - destruct (split1 sep b) as [w ws]. rewrite N.eqb_refl. reflexivity.
  - destruct (split1 sep (a ++ sep :: b)) as [w ws].
    destruct (split1 sep a) as [wa wsa].
    destruct (split1 sep b) as [wb wsb].
    simpl in IH. injection IH as -> ->.
    destruct (N.eqb c sep); reflexivity.
Qed.

End TrimFacts.

(* ===================================================================== *)
(** ** The formatter, line by line *)
(* ===================================================================== *)

Section FormatterLines.
Import JS Formatter View.

(** The five ways through [formatLine], by the shape of the cleaned line. *)
Lemma formatLine_cases (line : jsstring) (index : nat) :
  (cleanLine line = [] /\ formatLine line index = None)
  \/ (testHeading (cleanLine line) = true
      /\ formatLine line index
         = Some (mkElement index
                   (Heading (dropWhile isWhiteSpace
                               (tl (dropWhile isDigit (cleanLine line)))))))
  \/ (exists rest,
        cleanLine line = dash :: rest /\ includes rest colon = true
        /\ formatLine line index
           = Some (mkElement index
                     (LabeledField
                        (trim (fst (split1 colon rest)))
                        (trim (join colon (snd (split1 colon rest)))))))
  \/ (exists rest,
        cleanLine line = dash :: rest /\ includes rest colon = false
        /\ formatLine line index
           = Some (mkElement index (BulletItem (trim rest))))
  \/ (exists c rest,
        cleanLine line = c :: rest /\ c <> dash
        /\ testHeading (c :: rest) = false
        /\ formatLine line index
           = Some (mkElement index (Paragraph (c :: rest)))).
Proof.
  unfold formatLine.
  destruct (cleanLine line) as [|c rest] eqn:Hclean.
  - left. split; reflexivity.
  - right. cbv [truthy negb].
    destruct (testHeading (c :: rest)) eqn:Htest.
    + left. split; [reflexivity|].
      unfold removeNumericPrefix. rewrite Htest. reflexivity.
    + right.
      destruct (N.eqb_spec c dash) as [->|Hne].
      * replace (startsWith (dash :: rest) (js "-")) with true by reflexivity.
        change (includes (dash :: rest) colon) with (includes rest colon).
        change (substring 1 (dash :: rest)) with rest.
        destruct (includes rest colon) eqn:Hinc.
        -- left. exists rest. split; [reflexivity|]. split; [exact Hinc|].
           cbv [andb]. destruct (split1 colon rest) as [label valueParts].
           reflexivity.
        -- right. left. exists rest.
           split; [reflexivity|]. split; [exact Hinc|]. reflexivity.
      * right. right. exists c, rest. repeat split; try assumption.
        assert (Hs : startsWith (c :: rest) (js "-") = false).
        { simpl. rewrite andb_true_r. apply N.eqb_neq. exact Hne. }
        rewrite Hs. reflexivity.
Qed.

Lemma formatLine_key (line : jsstring) (index : nat) (e : Element) :
  formatLine line index = Some e -> key e = index.
Proof.
  destruct (formatLine_cases line index)
    as [[_ H]|[[_ H]|[(r & _ & _ & H)|[(r & _ & _ & H)|(c & r & _ & _ & _ & H)]]]];
    rewrite H; intros Heq; try discriminate;
    injection Heq as <-; reflexivity.
Qed.

(** X1.  A line whose cleaned text is a dash followed by a text without
    colon becomes a BulletItem block of that text, trimmed. *)
Theorem formatLine_bullet (line : jsstring) (index : nat) (rest : jsstring) :
  cleanLine line = dash :: rest ->
  ~ In colon rest ->
  formatLine line index = Some (mkElement index (BulletItem (trim rest))).
Proof.
  intros Hclean Hrest.
  destruct (formatLine_cases line index)
    as [[H _]|[[H _]|[(r & H & Hi & _)|[(r & H & _ & Hf)|(c & r & H & Hc & _)]]]];
    rewrite Hclean in H.
  - discriminate.
  - discriminate.
  - injection H as <-. rewrite (@includes_false rest colon Hrest) in Hi. discriminate.
  - injection H as <-. exact Hf.
  - injection H as <- _. contradiction.
Qed.

Lemma formatLine_bullet_witness :
  formatLine (js "  - *Acorns* provide food ") 4
  = Some (mkElement 4 (BulletItem (js "Acorns provide food"))).
Proof.
  apply (@formatLine_bullet (js "  - *Acorns* provide food ") 4
                            (js " Acorns provide food")).
  - reflexivity.
  - vm_compute. intuition discriminate.
Defined.

(** X2.  A line whose cleaned text is not empty, does not start with a dash
    and does not begin with digits and a period becomes a Paragraph block of
    the cleaned text. *)
Theorem formatLine_paragraph (line : jsstring) (index : nat)
        (c : N) (rest : jsstring) :
  cleanLine line = c :: rest ->
  c <> dash ->
  ~ (exists digits rest',
        digits <> [] /\ Forall (fun d => isDigit d = true) digits
        /\ c :: rest = digits ++ dot :: rest') ->
  formatLine line index = Some (mkElement index (Paragraph (c :: rest))).
Proof.
  intros Hclean Hc Hpattern.
  destruct (formatLine_cases line index)
    as [[H _]|[[H _]|[(r & H & _)|[(r & H & _)|(c' & r & H & _ & _ & Hf)]]]];
    rewrite Hclean in H.
  - discriminate.
  - apply testHeading_spec in H. contradiction.
  - injection H as -> _. contradiction.
  - injection H as -> _. contradiction.
  - injection H as <- <-. exact Hf.
Qed.

Lemma formatLine_paragraph_witness :
  formatLine (js "200-400 years") 9
  = Some (mkElement 9 (Paragraph (js "200-400 years"))).
Proof.
  apply (@formatLine_paragraph (js "200-400 years") 9 50 (js "00-400 years")).
  - reflexivity.
  - discriminate.
  - intros (digits & rest' & Hne & Hdigits & Heq).
    assert (Htest : testHeading (js "200-400 years") = true).
    { apply testHeading_spec. exists digits, rest'. repeat split; assumption. }
    discriminate Htest.
Defined.

(** X3.  A line gives no block exactly when it holds nothing but markdown
    characters and white space. *)
Theorem formatLine_dropped_iff (line : jsstring) (index : nat) :
  formatLine line index = None
  <-> Forall (fun c => isMarkdown c = true \/ isWhiteSpace c = true) line.
Proof.
  split.
  - intros Hnone.
    assert (Hclean : cleanLine line = []).
    { destruct (formatLine_cases line index)
        as [[H _]|[[_ H]|[(r & _ & _ & H)|[(r & _ & _ & H)|(c & r & _ & _ & _ & H)]]]];
        [exact H | rewrite H in Hnone; discriminate ..]. }
    apply trim_nil_inv in Hclean. unfold stripMarkdown in Hclean.
    rewrite Forall_forall in *. intros c Hc.
    destruct (isMarkdown c) eqn:Hm; [left; reflexivity | right].
    apply Hclean. apply filter_In. split; [exact Hc|].
    rewrite Hm. reflexivity.
  - intros H. unfold formatLine.
    rewrite (cleanLine_markdown_white H). reflexivity.
Qed.

(** X4.  No text of a block begins or ends with white space: [trim] leaves
    every text of every block as it is. *)
Theorem formatLine_texts_trimmed (line : jsstring) (index : nat)
        (e : Element) (t : jsstring) :
  formatLine line index = Some e ->
  In t (blockTexts (block e)) ->
  trim t = t.
Proof.
  intros He Ht.
  assert (Hgoal : noLeadingWhite t /\ noTrailingWhite t);
    [|destruct Hgoal; apply trim_fixed; assumption].
  destruct (formatLine_cases line index)
    as [[_ H]|[[_ H]|[(r & _ & _ & H)|[(r & _ & _ & H)|(c & r & Hc & _ & _ & H)]]]];
    rewrite H in He; try discriminate; injection He as <-; simpl in Ht.
  - destruct Ht as [<-|[]]. split.
    + apply dropWhile_noLeading.
    + destruct (dropWhile_suffix isDigit (cleanLine line)) as (a & Ha & _).
      destruct (dropWhile_suffix isWhiteSpace
                  (tl (dropWhile isDigit (cleanLine line)))) as (b & Hb & _).
      apply (@noTrailing_suffix
               (a ++ firstn 1 (dropWhile isDigit (cleanLine line)) ++ b)).
      replace ((a ++ firstn 1 (dropWhile isDigit (cleanLine line)) ++ b)
               ++ dropWhile isWhiteSpace
                    (tl (dropWhile isDigit (cleanLine line))))
        with (cleanLine line).
      * apply trim_noTrailing.
      * rewrite <- !app_assoc, <- Hb.
        rewrite Ha at 1. f_equal.
        destruct (dropWhile isDigit (cleanLine line)); reflexivity.
  - destruct Ht as [<-|[<-|[]]];
      (split; [apply trim_noLeading | apply trim_noTrailing]).
  - destruct Ht as [<-|[]].
    split; [apply trim_noLeading | apply trim_noTrailing].
  - destruct Ht as [<-|[]]. rewrite <- Hc.
    split; [apply trim_noLeading | apply trim_noTrailing].
Qed.

Lemma formatLine_texts_trimmed_witness :
  trim (js "Northern Red Oak") = js "Northern Red Oak".
Proof.
  apply (@formatLine_texts_trimmed
           (js " - Common name :  Northern Red Oak  ") 2
           (mkElement 2 (LabeledField (js "Common name")
                                      (js "Northern Red Oak")))
           (js "Northern Red Oak")).
  - reflexivity.
  - right. left. reflexivity.
Defined.

End FormatterLines.

Section FormatterLineInvariance.
Import JS Formatter View.

Lemma stripMarkdown_clean (line : jsstring) :
  Forall (fun c => isMarkdown c = false) (stripMarkdown line).
Proof.
  unfold stripMarkdown. apply Forall_forall. intros c Hc.
  apply filter_In in Hc. destruct Hc as [_ Hc].
  destruct (isMarkdown c); [discriminate | reflexivity].
Qed.

Lemma dropWhile_Forall (P : N -> Prop) (p : N -> bool) (s : jsstring) :
  Forall P s -> Forall P (dropWhile p s).
Proof.
  rewrite !Forall_forall. intros H c Hc. apply H.
  apply (@dropWhile_incl p s c Hc).
Qed.

Lemma tl_Forall (P : N -> Prop) (s : jsstring) :
  Forall P s -> Forall P (tl s).
Proof.
  intros H. destruct s as [|c s]; [constructor|].
  exact (Forall_inv_tail H).
Qed.

(** X5.  No text of a block holds one of the markdown characters
    [*], [_], [#] or the backquote. *)
Theorem formatLine_no_markdown (line : jsstring) (index : nat)
        (e : Element) (t : jsstring) :
  formatLine line index = Some e ->
  In t (blockTexts (block e)) ->
  Forall (fun c => isMarkdown c = false) t.
Proof.
  intros He Ht.
  pose proof (trim_Forall (stripMarkdown_clean line)) as Hclean.
  fold (cleanLine line) in Hclean.
  destruct (formatLine_cases line index)
    as [[_ H]|[[_ H]|[(r & Hc & _ & H)|[(r & Hc & _ & H)|(c & r & Hc & _ & _ & H)]]]];
    rewrite H in He; try discriminate; injection He as <-; simpl in Ht.
  - destruct Ht as [<-|[]].
    apply dropWhile_Forall, tl_Forall, dropWhile_Forall. exact Hclean.
  - rewrite Hc in Hclean. apply Forall_inv_tail in Hclean.
    destruct (split1_Forall colon Hclean) as [Hw Hws].
    destruct Ht as [<-|[<-|[]]]; apply trim_Forall.
    + exact Hw.
    + apply join_Forall; [reflexivity | exact Hws].
  - rewrite Hc in Hclean. apply Forall_inv_tail in Hclean.
    destruct Ht as [<-|[]]. apply trim_Forall. exact Hclean.
  - destruct Ht as [<-|[]]. rewrite <- Hc. exact Hclean.
Qed.

Lemma formatLine_no_markdown_witness :
  Forall (fun c => isMarkdown c = false) (js "snakecase name").
Proof.
  apply (@formatLine_no_markdown
           (js "- **snake_case name**: `Quercus`") 0
           (mkElement 0 (LabeledField (js "snakecase name") (js "Quercus")))
           (js "snakecase name")).
  - reflexivity.
  - left. reflexivity.
Defined.

Lemma stripMarkdown_app (a b : jsstring) :
  stripMarkdown (a ++ b) = stripMarkdown a ++ stripMarkdown b.
Proof. unfold stripMarkdown. apply filter_app. Qed.

Lemma stripMarkdown_white (w : jsstring) :
  Forall (fun c => isWhiteSpace c = true) w ->
  Forall (fun c => isWhiteSpace c = true) (stripMarkdown w).
Proof.
  unfold stripMarkdown. rewrite !Forall_forall. intros H c Hc.
  apply filter_In in Hc. apply H. exact (proj1 Hc).
Qed.

(** X6.  White space before and after a line (indentation, a carriage
    return left by a CRLF line end) does not change its block. *)
Theorem formatLine_surrounding_white (w1 line w2 : jsstring) (index : nat) :
  Forall (fun c => isWhiteSpace c = true) w1 ->
  Forall (fun c => isWhiteSpace c = true) w2 ->
  formatLine (w1 ++ line ++ w2) index = formatLine line index.
Proof.
  intros H1 H2.
  assert (Hclean : cleanLine (w1 ++ line ++ w2) = cleanLine line).
  { unfold cleanLine. rewrite !stripMarkdown_app.
    apply trim_surround; apply stripMarkdown_white; assumption. }
  unfold formatLine. rewrite Hclean. reflexivity.
Qed.

Lemma formatLine_surrounding_white_witness :
  formatLine (js "    " ++ js "2. Bark:" ++ [13%N]) 6
  = formatLine (js "2. Bark:") 6.
Proof.
  apply (@formatLine_surrounding_white (js "    ") (js "2. Bark:") [13%N] 6).
  - repeat constructor.
  - repeat constructor.
Defined.

(** X7.  Markdown characters put anywhere into a line do not change its
    block. *)
Theorem formatLine_markdown_inserted (a m b : jsstring) (index : nat) :
  Forall (fun c => isMarkdown c = true) m ->
  formatLine (a ++ m ++ b) index = formatLine (a ++ b) index.
Proof.
  intros Hm.
  assert (Hstrip : stripMarkdown m = []).
  { unfold stripMarkdown. induction Hm as [|c m Hc _ IH]; simpl.
    - reflexivity.
    - rewrite Hc. exact IH. }
  unfold formatLine, cleanLine.
  rewrite !stripMarkdown_app, Hstrip. reflexivity.
Qed.

Lemma formatLine_markdown_inserted_witness :
  formatLine (js "- Fam" ++ js "**" ++ js "ily: Fagaceae") 3
  = formatLine (js "- Fam" ++ js "ily: Fagaceae") 3.
Proof.
  apply (@formatLine_markdown_inserted
           (js "- Fam") (js "**") (js "ily: Fagaceae") 3).
  repeat constructor.
Defined.

(** X8.  The label of a LabeledField block holds no colon, and neither does
    the text of a BulletItem block; a Paragraph block is not empty and does
    not start with a dash. *)
Theorem formatLine_block_shape (line : jsstring) (index : nat)
        (e : Element) :
  formatLine line index = Some e ->
  match block e with
  | Heading _ => True
  | LabeledField label _ => ~ In colon label
  | BulletItem text => ~ In colon text
  | Paragraph text => exists c rest, text = c :: rest /\ c <> dash
  end.
Proof.
  intros He.
  destruct (formatLine_cases line index)
    as [[_ H]|[[_ H]|[(r & _ & _ & H)|[(r & _ & Hi & H)|(c & r & _ & Hc & _ & H)]]]];
    rewrite H in He; try discriminate; injection He as <-; simpl.
  - exact I.
  - intros Hin. apply trim_incl in Hin.
    exact (@split1_fst_no_sep colon r Hin).
  - intros Hin. apply trim_incl in Hin.
    exact (@includes_false_inv r colon Hi Hin).
  - exists c, r. split; [reflexivity | exact Hc].
Qed.

Lemma formatLine_block_shape_witness :
  ~ In colon (js "Size").
Proof.
  apply (@formatLine_block_shape
           (js "- Size: Large (ratio 3:1)") 7
           (mkElement 7 (LabeledField (js "Size") (js "Large (ratio 3:1)")))).
  reflexivity.
Defined.

End FormatterLineInvariance.

(* ===================================================================== *)
(** ** The formatter, report by report *)
(* ===================================================================== *)

Section FormatterReports.
Import JS Formatter View.

Lemma map_from_app (A B : Type) (f : A -> nat -> B) (i : nat)
      (l1 l2 : list A) :
  map_from f i (l1 ++ l2)
  = map_from f i l1 ++ map_from f (List.length l1 + i) l2.
Proof.
  revert i. induction l1 as [|x l1 IH]; simpl; intros i.
  - reflexivity.
  - rewrite IH. do 3 f_equal. lia.
Qed.

Lemma filter_Boolean_app (A : Type) (l1 l2 : list (option A)) :
  filter_Boolean (l1 ++ l2) = filter_Boolean l1 ++ filter_Boolean l2.
Proof.
  induction l1 as [|[x|] l1 IH]; simpl; [reflexivity | rewrite IH ..];
    reflexivity.
Qed.

Lemma formatLine_shift (line : jsstring) (k i : nat) :
  formatLine line (k + i) = option_map (shiftKey k) (formatLine line i).
Proof.
  unfold formatLine. cbv zeta.
  destruct (negb (truthy (cleanLine line))); [reflexivity|].
  destruct (testHeading (cleanLine line)); [reflexivity|].
  destruct (startsWith (cleanLine line) (js "-")
            && includes (cleanLine line) colon).
  - destruct (split1 colon (substring 1 (cleanLine line))). reflexivity.
  - destruct (startsWith (cleanLine line) (js "-")); reflexivity.
Qed.

Lemma formatted_from_shift (k i : nat) (l : list jsstring) :
  filter_Boolean (map_from formatLine (k + i) l)
  = map (shiftKey k) (filter_Boolean (map_from formatLine i l)).
Proof.
  revert i. induction l as [|line l IH]; simpl; intros i.
  - reflexivity.
  - rewrite formatLine_shift. change (S (k + i)) with (S k + i).
    replace (S k + i) with (k + S i) by lia. rewrite IH.
    destruct (formatLine line i); reflexivity.
Qed.

(** X9.  Formatting works line by line: the blocks of two texts joined by a
    line feed are the blocks of the first followed by those of the second,
    whose keys are moved on by the number of lines of the first. *)
Theorem formatAnalysis_app (a b : jsstring) :
  formatAnalysis (a ++ LF :: b)
  = formatAnalysis a
    ++ map (shiftKey (List.length (split LF a))) (formatAnalysis b).
Proof.
  unfold formatAnalysis, Array_map.
  rewrite split_app, map_from_app, filter_Boolean_app.
  f_equal. apply formatted_from_shift.
Qed.

Lemma formatted_from_In (e : Element) (i : nat) (l : list jsstring) :
  In e (filter_Boolean (map_from formatLine i l))
  <-> exists j line,
        nth_error l j = Some line /\ formatLine line (i + j) = Some e.
Proof.
  revert i. induction l as [|x l IH]; simpl; intros i.
  - split; [intros [] | intros (j & line & Hj & _)].
    destruct j; discriminate.
  - split.
    + intros Hin.
      assert (Hcase : formatLine x i = Some e
                      \/ In e (filter_Boolean (map_from formatLine (S i) l))).
      { destruct (formatLine x i) as [e'|]; [|right; exact Hin].
        destruct Hin as [->|Hin]; [left; reflexivity | right; exact Hin]. }
      destruct Hcase as [Hx|Hrest].
      * exists 0, x. split; [reflexivity|].
        rewrite Nat.add_0_r. exact Hx.
      * apply IH in Hrest. destruct Hrest as (j & line & Hj & Hf).
        exists (S j), line. split; [exact Hj|].
        rewrite Nat.add_succ_r. exact Hf.
    + intros (j & line & Hj & Hf). destruct j as [|j].
      * injection Hj as ->. rewrite Nat.add_0_r in Hf. rewrite Hf.
        left. reflexivity.
      * assert (Hin : In e (filter_Boolean (map_from formatLine (S i) l))).
        { apply IH. exists j, line. split; [exact Hj|].
          rewrite Nat.add_succ_r in Hf. exact Hf. }
        destruct (formatLine x i); [right|]; exact Hin.
Qed.

(** X10.  Each block of the output is the block of the line whose index is
    the block's key, and each line that gives a block has it in the
    output. *)
Theorem formatAnalysis_In (text : jsstring) (e : Element) :
  In e (formatAnalysis text)
  <-> exists line,
        nth_error (split LF text) (key e) = Some line
        /\ formatLine line (key e) = Some e.
Proof.
  unfold formatAnalysis, Array_map. rewrite formatted_from_In. split.
  - intros (j & line & Hj & Hf). simpl in Hf.
    rewrite (formatLine_key _ _ Hf). exists line. split; assumption.
  - intros (line & Hj & Hf). exists (key e), line. split; assumption.
Qed.

Lemma formatted_from_sorted (i : nat) (l : list jsstring) :
  StronglySorted lt (map key (filter_Boolean (map_from formatLine i l)))
  /\ Forall (fun k => i <= k < i + List.length l)
            (map key (filter_Boolean (map_from formatLine i l))).
Proof.
  revert i. induction l as [|line l IH]; simpl; intros i.
  - split; constructor.
  - destruct (IH (S i)) as [Hsorted Hbounds].
    assert (Hweaker :
              Forall (fun k => i <= k < i + S (List.length l))
                     (map key (filter_Boolean
                                 (map_from formatLine (S i) l)))).
    { eapply Forall_impl; [|exact Hbounds]. simpl. intros k Hk. lia. }
    destruct (formatLine line i) as [e|] eqn:He; simpl.
    + rewrite (formatLine_key _ _ He). split.
      * constructor; [exact Hsorted|].
        eapply Forall_impl; [|exact Hbounds]. simpl. intros k Hk. lia.
      * constructor; [lia | exact Hweaker].
    + split; assumption.
Qed.

(** X11.  The keys of the blocks grow strictly along the output, so blocks
    keep the order of their lines and no key is used twice; every key is
    below the number of lines. *)
Theorem formatAnalysis_keys (text : jsstring) :
  StronglySorted lt (map key (formatAnalysis text))
  /\ NoDup (map key (formatAnalysis text))
  /\ Forall (fun k => k < List.length (split LF text))
            (map key (formatAnalysis text)).
Proof.
  unfold formatAnalysis, Array_map.
  destruct (formatted_from_sorted 0 (split LF text)) as [Hsorted Hbounds].
  split; [exact Hsorted|]. split.
  - clear Hbounds.
    induction Hsorted as [|k ks _ IH Hk]; constructor; [|exact IH].
    intros Hin. rewrite Forall_forall in Hk. specialize (Hk k Hin). lia.
  - eapply Forall_impl; [|exact Hbounds]. simpl. intros k Hk. lia.
Qed.

End FormatterReports.

(* ===================================================================== *)
(** ** Runs of the page controller *)
(* ===================================================================== *)

Section ControllerRuns.
Import JS Formatter Controller View Scenario.

Lemma nth_error_at_length (A : Type) (l q : list A) (t : A) :
  nth_error (l ++ t :: q) (List.length l) = Some t.
Proof. induction l as [|x l IH]; simpl; [reflexivity | exact IH]. Qed.

Lemma removeAt_at_length (A : Type) (l q : list A) (t : A) :
  removeAt (List.length l) (l ++ t :: q) = l ++ q.
Proof.
  induction l as [|x l IH]; simpl; [reflexivity | rewrite IH; reflexivity].
Qed.

Lemma replace_at_length (A : Type) (l q : list A) (t t' : A) :
  firstn (List.length l) (l ++ t :: q)
  ++ t' :: skipn (S (List.length l)) (l ++ t :: q)
  = l ++ t' :: q.
Proof.
  induction l as [|x l IH]; simpl; [reflexivity|].
  simpl in IH. rewrite IH. reflexivity.
Qed.

Lemma length_snoc (A : Type) (l : list A) (t : A) :
  List.length (l ++ [t]) = S (List.length l).
Proof. induction l as [|x l IH]; simpl; [reflexivity | rewrite IH; reflexivity]. Qed.

(** An accepted file starts a read and changes none of the state cells. *)
Lemma handleImageUpload_accepted (c : Config) (file : File) :
  accepted file ->
  handleImageUpload (Some file) c
  = mkConfig (ui c) (pending c ++ [Reading UploadReader false]).
Proof.
  intros [Htype Hsize]. unfold handleImageUpload. rewrite Htype. cbn [negb].
  replace (MAX_SIZE <? size file)%N with false; [reflexivity|].
  symmetry. apply N.ltb_ge. exact Hsize.
Qed.

(** The [loadend] of the reader started last, after a successful read. *)
Lemma step_upload_loadend (s : UIState) (p : list Task) (failed : bool)
      (data : jsstring) :
  step (mkConfig s (p ++ [Reading UploadReader failed]))
       (ReaderLoadEnd (List.length p) data)
  = Some (mkConfig
            (mkUI (if failed then None else Some data) (analysis s) true None)
            (p ++ [Analyzing (if failed then None else Some data)])).
Proof.
  unfold step. cbn [pending]. rewrite nth_error_at_length.
  unfold seq, settled, onloadend, upload_onloadend, handleAnalyze, seq,
    setImage, setError, setLoading, spawn.
  cbn [pending ui image analysis loading error].
  rewrite removeAt_at_length, app_nil_r. reflexivity.
Qed.

Lemma step_resolved_last (s : UIState) (p q : list Task)
      (img : option jsstring) (result : jsstring) :
  step (mkConfig s (p ++ Analyzing img :: q))
       (AnalysisResolved (List.length p) result)
  = Some (mkConfig (mkUI (image s) result false (error s)) (p ++ q)).
Proof.
  unfold step. cbn [pending]. rewrite nth_error_at_length.
  unfold seq, settled, handleAnalyze_resolved, seq, setAnalysis, setLoading.
  cbn [pending ui image analysis loading error].
  rewrite removeAt_at_length. reflexivity.
Qed.

(** X12.  A file of an image type of at most 20 * 1024 * 1024 bytes starts
    a read and changes no state cell: an error shown before stays until the
    read has completed. *)
Theorem upload_accepted (c : Config) (file : File) :
  startsWith (type file) (js "image/") = true ->
  (size file <= 20 * 1024 * 1024)%N ->
  step c (FileSelected (Some file))
  = Some (mkConfig (ui c) (pending c ++ [Reading UploadReader false])).
Proof.
  intros Htype Hsize. unfold step.
  rewrite handleImageUpload_accepted by (split; assumption). reflexivity.
Qed.

Lemma upload_accepted_witness :
  step loadingWithError
       (FileSelected (Some (mkFile (js "image/webp") 20971520)))
  = Some (mkConfig (mkUI None [] true (Some wrongTypeMessage))
                   [FetchDefault; Reading UploadReader false]).
Proof.
  apply (@upload_accepted loadingWithError
                          (mkFile (js "image/webp") 20971520)).
  - reflexivity.
  - discriminate.
Defined.

(** X13.  An accepted file whose read and analysis both succeed ends with
    the picture read as image, the text returned as report, no error, not
    loading, and the operations in flight as they were before. *)
Theorem upload_then_resolved (c : Config) (file : File)
        (data result : jsstring) :
  accepted file ->
  run c [FileSelected (Some file);
         ReaderLoadEnd (List.length (pending c)) data;
         AnalysisResolved (List.length (pending c)) result]
  = Some (mkConfig (mkUI (Some data) result false None) (pending c)).
Proof.
  intros Hfile. cbn [run]. unfold step at 1.
  rewrite handleImageUpload_accepted by exact Hfile.
  rewrite step_upload_loadend, step_resolved_last, app_nil_r.
  reflexivity.
Qed.

Lemma upload_then_resolved_witness :
  run loadingWithError
      [FileSelected (Some photo); ReaderLoadEnd 1 picture;
       AnalysisResolved 1 (js "1. Species Identification:")]
  = Some (mkConfig (mkUI (Some picture) (js "1. Species Identification:")
                         false None)
                   [FetchDefault]).
Proof.
  apply (@upload_then_resolved loadingWithError photo picture
                               (js "1. Species Identification:")).
  split; [reflexivity | discriminate].
Defined.

(** X14.  A newer analysis does not cancel an older one: when the picture
    shown is being identified and an accepted file is then read and
    analysed, a late answer to the first call replaces the report, so the
    new picture is shown with the report of the old one. *)
Theorem stale_analysis_overwrites (c : Config) (img : jsstring) (file : File)
        (data newer older : jsstring) :
  image (ui c) = Some img ->
  truthy img = true ->
  loading (ui c) = false ->
  accepted file ->
  run c [IdentifyClicked;
         FileSelected (Some file);
         ReaderLoadEnd (S (List.length (pending c))) data;
         AnalysisResolved (S (List.length (pending c))) newer;
         AnalysisResolved (List.length (pending c)) older]
  = Some (mkConfig (mkUI (Some data) older false None) (pending c)).
Proof.
  intros Himg Htruthy Hloading Hfile.
  destruct c as [s p]. cbn [ui pending] in *.
  cbn [run]. unfold step at 1. cbn [ui pending].
  rewrite Himg, Htruthy, Hloading. cbn [andb negb].
  unfold handleAnalyze at 1, seq, setLoading, setError, spawn.
  cbn [ui pending image analysis loading error].
  unfold step at 1.
  rewrite handleImageUpload_accepted by exact Hfile. cbn [ui pending].
  rewrite <- (length_snoc p (Analyzing (Some img))).
  rewrite step_upload_loadend.
  rewrite (step_resolved_last _ (p ++ [Analyzing (Some img)]) []).
  rewrite app_nil_r.
  rewrite (step_resolved_last _ p []).
  rewrite app_nil_r. reflexivity.
Qed.

Lemma stale_analysis_overwrites_witness :
  run (mkConfig (mkUI (Some picture) DEFAULT_ANALYSIS false None) [])
      [IdentifyClicked; FileSelected (Some photo);
       ReaderLoadEnd 1 (js "data:image/jpeg;base64,BIRCH");
       AnalysisResolved 1 (js "- Common name: Silver Birch");
       AnalysisResolved 0 (js "- Common name: Northern Red Oak")]
  = Some (mkConfig (mkUI (Some (js "data:image/jpeg;base64,BIRCH"))
                         (js "- Common name: Northern Red Oak") false None)
                   []).
Proof.
  apply (@stale_analysis_overwrites
           (mkConfig (mkUI (Some picture) DEFAULT_ANALYSIS false None) [])
           picture photo).
  - reflexivity.
  - reflexivity.
  - reflexivity.
  - split; [reflexivity | discriminate].
Defined.

(** X15.  The default picture and report are installed without a call of
    the analysis: once the fetch and the read have succeeded, the image is
    the data read, the report is the built-in text and loading is off, and
    an error set in the meantime is still there. *)
Theorem default_load_succeeds (c : Config) (i : nat) (data : jsstring) :
  nth_error (pending c) i = Some FetchDefault ->
  run c [FetchSettled i true;
         ReaderLoadEnd (List.length (removeAt i (pending c))) data]
  = Some (mkConfig (mkUI (Some data) DEFAULT_ANALYSIS false (error (ui c)))
                   (removeAt i (pending c))).
Proof.
  intros Hfetch. cbn [run]. unfold step at 1. rewrite Hfetch.
  unfold seq, settled, loadDefaultContent_fetched, spawn.
  cbn [ui pending].
  unfold step. cbn [pending]. rewrite nth_error_at_length.
  unfold seq, settled, onloadend, default_onloadend, seq,
    setImage, setAnalysis, setLoading.
  cbn [pending ui image analysis loading error].
  rewrite removeAt_at_length, app_nil_r. reflexivity.
Qed.

Lemma default_load_succeeds_witness :
  run loadingWithError [FetchSettled 0 true; ReaderLoadEnd 0 picture]
  = Some (mkConfig (mkUI (Some picture) DEFAULT_ANALYSIS false
                         (Some wrongTypeMessage)) []).
Proof.
  apply (@default_load_succeeds loadingWithError 0 picture).
  reflexivity.
Defined.

(** X16.  When the read of the default picture fails, its [error] handler
    sets the message and the [loadend] handler that follows still installs
    the built-in report, with no image. *)
Theorem default_read_fails (c : Config) (i : nat) (data : jsstring) :
  nth_error (pending c) i = Some FetchDefault ->
  run c [FetchSettled i true;
         ReaderError (List.length (removeAt i (pending c)));
         ReaderLoadEnd (List.length (removeAt i (pending c))) data]
  = Some (mkConfig (mkUI None DEFAULT_ANALYSIS false
                         (Some defaultLoadMessage))
                   (removeAt i (pending c))).
Proof.
  intros Hfetch. cbn [run]. unfold step at 1. rewrite Hfetch.
  unfold seq, settled, loadDefaultContent_fetched, spawn.
  cbn [ui pending].
  unfold step at 1. cbn [pending]. rewrite nth_error_at_length.
  unfold seq, replaceAt, onerror, default_onerror, seq, setError, setLoading.
  cbn [pending ui image analysis loading error].
  rewrite replace_at_length.
  unfold step. cbn [pending]. rewrite nth_error_at_length.
  unfold seq, settled, onloadend, default_onloadend, seq,
    setImage, setAnalysis, setLoading.
  cbn [pending ui image analysis loading error].
  rewrite removeAt_at_length, app_nil_r. reflexivity.
Qed.

Lemma default_read_fails_witness :
  run mounted [FetchSettled 0 true; ReaderError 0; ReaderLoadEnd 0 picture]
  = Some (mkConfig (mkUI None DEFAULT_ANALYSIS false
                         (Some defaultLoadMessage)) []).
Proof.
  apply (@default_read_fails mounted 0 picture).
  reflexivity.
Defined.

(** X17.  When the read of an accepted file fails, the message of the
    [error] handler does not last: the [loadend] handler that follows
    removes the image, clears the error and starts an analysis of no
    picture. *)
Theorem upload_read_fails (c : Config) (file : File) (data : jsstring) :
  accepted file ->
  run c [FileSelected (Some file);
         ReaderError (List.length (pending c));
         ReaderLoadEnd (List.length (pending c)) data]
  = Some (mkConfig (mkUI None (analysis (ui c)) true None)
                   (pending c ++ [Analyzing None])).
Proof.
  intros Hfile. cbn [run]. unfold step at 1.
  rewrite handleImageUpload_accepted by exact Hfile.
  unfold step at 1. cbn [pending]. rewrite nth_error_at_length.
  unfold seq, replaceAt, onerror, upload_onerror, setError.
  cbn [pending ui image analysis loading error].
  rewrite replace_at_length.
  rewrite step_upload_loadend. reflexivity.
Qed.

Lemma upload_read_fails_witness :
  run (mkConfig (mkUI (Some picture) DEFAULT_ANALYSIS false None) [])
      [FileSelected (Some photo); ReaderError 0; ReaderLoadEnd 0 picture]
  = Some (mkConfig (mkUI None DEFAULT_ANALYSIS true None) [Analyzing None]).
Proof.
  apply (@upload_read_fails
           (mkConfig (mkUI (Some picture) DEFAULT_ANALYSIS false None) [])
           photo picture).
  split; [reflexivity | discriminate].
Defined.

End ControllerRuns.

(* ===================================================================== *)
(** ** Invariants of the page controller *)
(* ===================================================================== *)

Section ControllerInvariants.
Import JS Formatter Controller View Scenario.

Lemma existsb_snoc (A : Type) (f : A -> bool) (l : list A) (t : A) :
  existsb f (l ++ [t]) = existsb f l || f t.
Proof. rewrite existsb_app. simpl. rewrite orb_false_r. reflexivity. Qed.

(** Replacing an operation that does not clear the loading flag keeps the
    ones that do. *)
Lemma existsb_replace (A : Type) (f : A -> bool) (l : list A) (i : nat)
      (t t' : A) :
  nth_error l i = Some t -> f t = false ->
  existsb f l = true ->
  existsb f (firstn i l ++ t' :: skipn (S i) l) = true.
Proof.
  revert i. induction l as [|x l IH]; intros i Hnth Ht Hl.
  - discriminate.
  - destruct i as [|i]; simpl in *.
    + injection Hnth as ->. rewrite Ht in Hl. simpl in Hl.
      rewrite Hl. apply orb_true_r.
    + destruct (f x); [reflexivity|]. simpl in *.
      apply IH; assumption.
Qed.

Lemma step_loadingBacked (c c' : Config) (e : Event) :
  loadingBacked c -> step c e = Some c' -> loadingBacked c'.
Proof.
  unfold loadingBacked. intros Hc Hstep.
  destruct e as [file| |i ok|i|i data|i result|i err]; unfold step in Hstep.
  - injection Hstep as <-. unfold handleImageUpload.
    destruct file as [file|]; [|exact Hc].
    destruct (negb (startsWith (type file) (js "image/"))); [exact Hc|].
    destruct (MAX_SIZE <? size file)%N; [exact Hc|].
    unfold spawn. cbn [ui pending]. intros Hl.
    rewrite existsb_snoc, (Hc Hl). reflexivity.
  - destruct (image (ui c)) as [img|]; [|discriminate].
    destruct (truthy img && negb (loading (ui c))); [|discriminate].
    injection Hstep as <-. intros _.
    unfold handleAnalyze, seq, setLoading, setError, spawn.
    cbn [ui pending]. rewrite existsb_snoc. apply orb_true_r.
  - destruct (nth_error (pending c) i) as [[| |]|]; try discriminate.
    injection Hstep as <-. destruct ok.
    + intros _. unfold seq, settled, loadDefaultContent_fetched, spawn.
      cbn [ui pending]. rewrite existsb_snoc. apply orb_true_r.
    + intros Hl. discriminate Hl.
  - destruct (nth_error (pending c) i) as [[|r [|]|]|] eqn:Hnth;
      try discriminate.
    injection Hstep as <-. destruct r.
    + intros Hl. discriminate Hl.
    + unfold seq, replaceAt, onerror, upload_onerror, setError.
      cbn [ui pending loading]. intros Hl.
      apply (@existsb_replace _ clearsLoading (pending c) i
                              (Reading UploadReader false));
        [exact Hnth | reflexivity | exact (Hc Hl)].
  - destruct (nth_error (pending c) i) as [[|r failed|]|]; try discriminate.
    injection Hstep as <-. destruct r.
    + intros Hl. discriminate Hl.
    + intros _.
      unfold seq, settled, onloadend, upload_onloadend, handleAnalyze, seq,
        setImage, setLoading, setError, spawn.
      cbn [ui pending]. rewrite existsb_snoc. apply orb_true_r.
  - destruct (nth_error (pending c) i) as [[| |]|]; try discriminate.
    injection Hstep as <-. intros Hl. discriminate Hl.
  - destruct (nth_error (pending c) i) as [[| |]|]; try discriminate.
    injection Hstep as <-. intros Hl. discriminate Hl.
Qed.

Lemma run_loadingBacked (events : list Event) (c c' : Config) :
  loadingBacked c -> run c events = Some c' -> loadingBacked c'.
Proof.
  revert c. induction events as [|e events IH]; simpl; intros c Hc Hrun.
  - injection Hrun as <-. exact Hc.
  - destruct (step c e) as [c1|] eqn:Hstep; [|discriminate].
    apply (IH c1); [|exact Hrun].
    exact (@step_loadingBacked c c1 e Hc Hstep).
Qed.

(** X18.  The loading flag is never left up with nothing to take it down:
    in every reachable state where it is up, the default load or a call of
    the analysis is still in flight. *)
Theorem loading_has_operation (c : Config) :
  reachable c ->
  loading (ui c) = true ->
  exists t,
    In t (pending c)
    /\ (t = FetchDefault
        \/ (exists failed, t = Reading DefaultReader failed)
        \/ exists imageData, t = Analyzing imageData).
Proof.
  intros [events Hrun] Hloading.
  assert (Hinv : loadingBacked c).
  { apply (@run_loadingBacked events mounted c); [|exact Hrun].
    intros _. reflexivity. }
  specialize (Hinv Hloading). apply existsb_exists in Hinv.
  destruct Hinv as (t & Hin & Ht). exists t. split; [exact Hin|].
  destruct t as [|[|] failed|imageData]; try discriminate.
  - left. reflexivity.
  - right. left. exists failed. reflexivity.
  - right. right. exists imageData. reflexivity.
Qed.

Lemma loading_has_operation_witness :
  exists t,
    In t (pending identifying)
    /\ (t = FetchDefault
        \/ (exists failed, t = Reading DefaultReader failed)
        \/ exists imageData, t = Analyzing imageData).
Proof.
  apply (@loading_has_operation identifying).
  - exists identify. reflexivity.
  - reflexivity.
Defined.

Lemma count_removeAt (A : Type) (f : A -> bool) (i : nat) (l : list A) :
  List.length (filter f (removeAt i l)) <= List.length (filter f l).
Proof.
  revert i. induction l as [|x l IH]; intros i.
  - destruct i; simpl; lia.
  - destruct i as [|i]; simpl.
    + destruct (f x); simpl; lia.
    + specialize (IH i). destruct (f x); simpl; lia.
Qed.

Lemma count_replace (A : Type) (f : A -> bool) (l : list A) (i : nat)
      (t' : A) :
  f t' = false ->
  List.length (filter f (firstn i l ++ t' :: skipn (S i) l))
  <= List.length (filter f l).
Proof.
  intros Ht'. revert i. induction l as [|x l IH]; intros i.
  - destruct i; simpl; rewrite Ht'; simpl; lia.
  - destruct i as [|i].
    + simpl. rewrite Ht'. destruct (f x); simpl; lia.
    + specialize (IH i).
      change (firstn (S i) (x :: l) ++ t' :: skipn (S (S i)) (x :: l))
        with (x :: (firstn i l ++ t' :: skipn (S i) l)).
      cbn [filter]. destruct (f x); cbn [List.length]; lia.
Qed.

Lemma count_snoc (A : Type) (f : A -> bool) (l : list A) (t : A) :
  List.length (filter f (l ++ [t]))
  = List.length (filter f l) + (if f t then 1 else 0).
Proof.
  rewrite filter_app, length_app. simpl. destruct (f t); reflexivity.
Qed.

(** X19.  [analyzeImage] is called from two places only: a step raises the
    number of analyses in flight only if it is a click on Identify or the
    [loadend] of a reader started by an upload.  Mounting, selecting a file
    and the settling of any operation never start an analysis. *)
Theorem analysis_started_only_by (c c' : Config) (e : Event) :
  step c e = Some c' ->
  analysesInFlight c < analysesInFlight c' ->
  e = IdentifyClicked
  \/ exists i data failed,
       e = ReaderLoadEnd i data
       /\ nth_error (pending c) i = Some (Reading UploadReader failed).
Proof.
  unfold analysesInFlight. intros Hstep Hmore.
  destruct e as [file| |i ok|i|i data|i result|i err]; unfold step in Hstep.
  - exfalso. injection Hstep as <-. unfold handleImageUpload in Hmore.
    destruct file as [file|]; [|unfold skip in Hmore; lia].
    destruct (negb (startsWith (type file) (js "image/")));
      [unfold setError in Hmore; cbn [pending] in Hmore; lia|].
    destruct (MAX_SIZE <? size file)%N;
      [unfold setError in Hmore; cbn [pending] in Hmore; lia|].
    unfold spawn in Hmore. cbn [pending] in Hmore.
    rewrite count_snoc in Hmore. simpl in Hmore. lia.
  - left. reflexivity.
  - exfalso.
    destruct (nth_error (pending c) i) as [[| |]|]; try discriminate.
    injection Hstep as <-.
    pose proof (count_removeAt isAnalyzing i (pending c)) as Hle.
    destruct ok;
      unfold seq, settled, loadDefaultContent_fetched,
        loadDefaultContent_catch, seq, setError, setLoading, spawn in Hmore;
      cbn [pending ui] in Hmore.
    + rewrite count_snoc in Hmore. simpl in Hmore. lia.
    + lia.
  - exfalso.
    destruct (nth_error (pending c) i) as [[|r [|]|]|]; try discriminate.
    injection Hstep as <-.
    pose proof (@count_replace _ isAnalyzing (pending c) i (Reading r true)
                               eq_refl) as Hle.
    destruct r;
      unfold seq, replaceAt, onerror, default_onerror, upload_onerror, seq,
        setError, setLoading in Hmore;
      cbn [pending ui] in Hmore; lia.
  - destruct (nth_error (pending c) i) as [[|r failed|]|] eqn:Hnth;
      try discriminate.
    destruct r.
    + exfalso. injection Hstep as <-.
      pose proof (count_removeAt isAnalyzing i (pending c)) as Hle.
      unfold seq, settled, onloadend, default_onloadend, seq,
        setImage, setAnalysis, setLoading in Hmore.
      cbn [pending ui] in Hmore. lia.
    + right. exists i, data, failed. split; [reflexivity | exact Hnth].
  - exfalso.
    destruct (nth_error (pending c) i) as [[| |]|]; try discriminate.
    injection Hstep as <-.
    pose proof (count_removeAt isAnalyzing i (pending c)) as Hle.
    unfold seq, settled, handleAnalyze_resolved, seq, setAnalysis,
      setLoading in Hmore.
    cbn [pending ui] in Hmore. lia.
  - exfalso.
    destruct (nth_error (pending c) i) as [[| |]|]; try discriminate.
    injection Hstep as <-.
    pose proof (count_removeAt isAnalyzing i (pending c)) as Hle.
    unfold seq, settled, handleAnalyze_rejected, seq, setError,
      setLoading in Hmore.
    cbn [pending ui] in Hmore. lia.
Qed.

Lemma analysis_started_only_by_witness :
  IdentifyClicked = IdentifyClicked
  \/ exists i data failed,
       IdentifyClicked = ReaderLoadEnd i data
       /\ nth_error
            (pending (mkConfig (mkUI (Some picture) DEFAULT_ANALYSIS false
                                     None) []))
            i
          = Some (Reading UploadReader failed).
Proof.
  apply (@analysis_started_only_by
           (mkConfig (mkUI (Some picture) DEFAULT_ANALYSIS false None) [])
           identifying IdentifyClicked).
  - reflexivity.
  - unfold analysesInFlight. simpl. lia.
Defined.

End ControllerInvariants.

(* ===================================================================== *)
(** ** What each step leaves alone, and what the panels show *)
(* ===================================================================== *)

Section ControllerFrames.
Import JS Formatter Controller View Scenario.

(** X20.  The image changes only when a reader completes, and the report
    text only when an analysis resolves or the reader of the default
    picture completes: selecting a file, a click, a failed fetch, a reader
    error and a failed analysis leave both as they are. *)
Theorem step_frame (c c' : Config) (e : Event) :
  step c e = Some c' ->
  (image (ui c') <> image (ui c) -> exists i data, e = ReaderLoadEnd i data)
  /\ (analysis (ui c') <> analysis (ui c) ->
      (exists i result, e = AnalysisResolved i result)
      \/ exists i data failed,
           e = ReaderLoadEnd i data
           /\ nth_error (pending c) i = Some (Reading DefaultReader failed)).
Proof.
  intros Hstep.
  destruct e as [file| |i ok|i|i data|i result|i err]; unfold step in Hstep.
  - injection Hstep as <-.
    assert (Hui : image (ui (handleImageUpload file c)) = image (ui c)
                  /\ analysis (ui (handleImageUpload file c))
                     = analysis (ui c)).
    { unfold handleImageUpload. destruct file as [file|]; [|split; reflexivity].
      destruct (negb (startsWith (type file) (js "image/")));
        [split; reflexivity|].
      destruct (MAX_SIZE <? size file)%N; split; reflexivity. }
    destruct Hui as [Hi Ha]. split; intros H; contradiction.
  - destruct (image (ui c)) as [img|] eqn:Himg; [|discriminate].
    destruct (truthy img && negb (loading (ui c))); [|discriminate].
    injection Hstep as <-. cbn [handleAnalyze].
    split; intros H; exfalso; apply H; simpl; congruence.
  - destruct (nth_error (pending c) i) as [[| |]|]; try discriminate.
    injection Hstep as <-.
    destruct ok; split; intros H; exfalso; apply H; reflexivity.
  - destruct (nth_error (pending c) i) as [[|r [|]|]|]; try discriminate.
    injection Hstep as <-.
    destruct r; split; intros H; exfalso; apply H; reflexivity.
  - destruct (nth_error (pending c) i) as [[|r failed|]|] eqn:Hnth;
      try discriminate.
    injection Hstep as <-. split.
    + intros _. exists i, data. reflexivity.
    + intros H. destruct r.
      * right. exists i, data, failed. split; [reflexivity | exact Hnth].
      * exfalso. apply H. reflexivity.
  - destruct (nth_error (pending c) i) as [[| |]|]; try discriminate.
    injection Hstep as <-. split.
    + intros H. exfalso. apply H. reflexivity.
    + intros _. left. exists i, result. reflexivity.
  - destruct (nth_error (pending c) i) as [[| |]|]; try discriminate.
    injection Hstep as <-.
    split; intros H; exfalso; apply H; reflexivity.
Qed.

Lemma step_frame_witness :
  (image (ui loadingWithError) <> image (ui mounted) ->
   exists i data, FileSelected (Some pdf) = ReaderLoadEnd i data)
  /\ (analysis (ui loadingWithError) <> analysis (ui mounted) ->
      (exists i result, FileSelected (Some pdf) = AnalysisResolved i result)
      \/ exists i data failed,
           FileSelected (Some pdf) = ReaderLoadEnd i data
           /\ nth_error (pending mounted) i
              = Some (Reading DefaultReader failed)).
Proof.
  apply (@step_frame mounted loadingWithError (FileSelected (Some pdf))).
  reflexivity.
Defined.

(** A report made only of markdown characters and white space has no
    block. *)
Lemma formatAnalysis_blank (text : jsstring) :
  Forall (fun c => isMarkdown c = true \/ isWhiteSpace c = true) text ->
  formatAnalysis text = [].
Proof.
  intros H. unfold formatAnalysis, Array_map.
  apply filter_Boolean_all_None.
  eapply Forall_impl; [|exact (split_Forall LF H)].
  intros piece Hpiece j. unfold formatLine.
  rewrite (cleanLine_markdown_white Hpiece). reflexivity.
Qed.

(** X21.  When an analysis resolves with a text made only of markdown
    characters and white space, the report shown before is gone: for the
    empty text the report panel is not rendered at all, otherwise it is
    rendered with no block in it. *)
Theorem blank_result_panel (c : Config) (i : nat)
        (imageData : option jsstring) (text : jsstring) :
  nth_error (pending c) i = Some (Analyzing imageData) ->
  Forall (fun ch => isMarkdown ch = true \/ isWhiteSpace ch = true) text ->
  exists c',
    step c (AnalysisResolved i text) = Some c'
    /\ loading (ui c') = false
    /\ renderReport (ui c') = match text with [] => None | _ :: _ => Some [] end.
Proof.
  intros Hpending Hblank. unfold step. rewrite Hpending.
  eexists. split; [reflexivity|]. split; [reflexivity|].
  unfold renderReport. cbn [seq settled handleAnalyze_resolved setAnalysis
                             setLoading ui analysis].
  destruct text as [|ch text]; [reflexivity|].
  cbn [truthy]. rewrite (formatAnalysis_blank Hblank). reflexivity.
Qed.

Lemma blank_result_panel_witness :
  exists c',
    step identifying (AnalysisResolved 0 (js "** **")) = Some c'
    /\ loading (ui c') = false
    /\ renderReport (ui c') = Some [].
Proof.
  apply (@blank_result_panel identifying 0 (Some picture) (js "** **")).
  - reflexivity.
  - repeat (apply Forall_cons;
            [first [left; reflexivity | right; reflexivity]|]).
    apply Forall_nil.
Defined.

(** X22.  When an analysis fails with an [Error] whose message is empty,
    the controller stops loading and the error panel is not rendered: the
    failure shows nothing. *)
Theorem empty_message_shows_nothing (c : Config) (i : nat)
        (imageData : option jsstring) :
  nth_error (pending c) i = Some (Analyzing imageData) ->
  exists c',
    step c (AnalysisRejected i (ErrorObject [])) = Some c'
    /\ error (ui c') = Some []
    /\ errorPanel (ui c') = None
    /\ loading (ui c') = false
    /\ renderReport (ui c') = renderReport (ui c).
Proof.
  intros Hpending. unfold step. rewrite Hpending.
  eexists. split; [reflexivity|]. repeat split.
Qed.

Lemma empty_message_shows_nothing_witness :
  exists c',
    step identifying (AnalysisRejected 0 (ErrorObject [])) = Some c'
    /\ error (ui c') = Some []
    /\ errorPanel (ui c') = None
    /\ loading (ui c') = false
    /\ renderReport (ui c') = renderReport (ui identifying).
Proof.
  apply (@empty_message_shows_nothing identifying 0 (Some picture)).
  reflexivity.
Defined.

End ControllerFrames.
